(** * BollingerBandsForexAlgorithm: a shallow embedding and its specification

    The strategy script [BollingerBand.py] is a LEAN algorithm with two
    methods, [Initialize] and [TradeLogic].  Both are embedded here as Rocq
    functions over an explicit record of what the method reads, returning the
    trace of calls made to the host framework.  Prices and band values are
    Python floats, that is IEEE 754 binary64 numbers; they are modelled with
    the axiom-free [spec_float] of the Standard Library.

    The Bollinger Bands indicator itself is the host's ([self.BB]); the
    rolling band indicator of the specification is modelled from its text,
    over the real numbers, in the module [Indicator]. *)

From Stdlib Require Import ZArith List Bool String Ascii Lia.
From Stdlib Require Import Floats.SpecFloat.
From Stdlib Require Import Reals Lra.
From Stdlib Require DecimalString DecimalZ DecimalPos.
Import ListNotations.

(** ** Python floats (binary64) and their comparisons *)

Module PyFloat.

Definition prec : Z := 53.
Definition emax : Z := 1024.

Definition float : Type := spec_float.

(** [x < y], [x > y], [x <= y], [x >= y] of Python: every comparison with a
    NaN is [False]. *)
Definition ltb (x y : float) : bool :=
  match SFcompare x y with Some Lt => true | _ => false end.

Definition gtb (x y : float) : bool :=
  match SFcompare x y with Some Gt => true | _ => false end.

Definition leb (x y : float) : bool :=
  match SFcompare x y with Some (Lt | Eq) => true | _ => false end.

Definition geb (x y : float) : bool :=
  match SFcompare x y with Some (Gt | Eq) => true | _ => false end.

(** The float nearest to an integer (round to nearest, ties to even). *)
Definition of_Z (z : Z) : float := binary_normalize prec emax z 0 false.

(** The float nearest to [(-1)^s * m * 10^e]: what reading a decimal literal
    gives.  A non-negative exponent scales the integer before the one
    rounding; a negative one divides by the power of ten, the quotient being
    rounded once. *)
Definition of_decimal (s : bool) (m : Z) (e : Z) : float :=
  match m with
  | Zpos p =>
      match e with
      | Zneg k =>
          SFdiv prec emax (S754_finite s p 0)
                (S754_finite false (Pos.pow 10 k) 0)
      | _ => binary_normalize prec emax (cond_Zopp s (m * 10 ^ e)) 0 s
      end
  | _ => S754_zero s
  end.

Definition one : float := of_Z 1.
Definition two : float := of_Z 2.

End PyFloat.

Declare Scope pyfloat_scope.
Delimit Scope pyfloat_scope with pyfloat.
Infix "<?" := PyFloat.ltb (at level 70) : pyfloat_scope.
Infix ">?" := PyFloat.gtb (at level 70) : pyfloat_scope.
Infix "<=?" := PyFloat.leb (at level 70) : pyfloat_scope.
Infix ">=?" := PyFloat.geb (at level 70) : pyfloat_scope.

(** ** The builtins [int] and [float] on a [str]

    [Initialize] converts its parameters with [int(...)] and [float(...)].
    Both are modelled on ASCII text: surrounding whitespace is dropped, a
    sign may come first, an underscore may stand between two digits, and
    anything else raises [ValueError] ([None] here).  [int] also raises
    when the text has more than 4300 digits, the default limit of CPython
    3.11 ([sys.get_int_max_str_digits()]); [float] has no such limit. *)

Module PyBuiltin.

Local Open Scope char_scope.

Definition is_space (c : ascii) : bool :=
  let n := nat_of_ascii c in
  ((9 <=? n) && (n <=? 13) || (n =? 32))%nat.

Definition is_digit (c : ascii) : bool :=
  let n := nat_of_ascii c in ((48 <=? n) && (n <=? 57))%nat.

Definition digit_val (c : ascii) : Z := Z.of_nat (nat_of_ascii c - 48).

Definition to_lower (c : ascii) : ascii :=
  let n := nat_of_ascii c in
  if ((65 <=? n) && (n <=? 90))%nat then ascii_of_nat (n + 32) else c.

Fixpoint lstrip (s : list ascii) : list ascii :=
  match s with
  | c :: r => if is_space c then lstrip r else s
  | [] => []
  end.

Definition strip (s : list ascii) : list ascii :=
  rev (lstrip (rev (lstrip s))).

(** An optional sign: [true] for a minus. *)
Definition take_sign (s : list ascii) : bool * list ascii :=
  match s with
  | "+" :: r => (false, r)
  | "-" :: r => (true, r)
  | _ => (false, s)
  end.

(** Digits of [int]: at least one, a single underscore only between two of
    them.  [prev] tells whether the character before was a digit. *)
Fixpoint int_digits (acc : Z) (prev : bool) (s : list ascii) : option Z :=
  match s with
  | [] => if prev then Some acc else None
  | c :: r =>
      if is_digit c then int_digits (acc * 10 + digit_val c) true r
      else if Ascii.eqb c "_" && prev then
        match r with
        | d :: _ => if is_digit d then int_digits acc false r else None
        | [] => None
        end
      else None
  end.

(** The most digits [int] converts, and the digits of a text: underscores,
    sign and whitespace do not count, leading zeros do. *)
Definition max_str_digits : nat := 4300.

Definition count_digits (s : list ascii) : nat :=
  List.length (filter is_digit s).

(** [int(s)] for a [str], base ten. *)
Definition py_int (s : string) : option Z :=
  let (neg, body) := take_sign (strip (list_ascii_of_string s)) in
  if (count_digits body <=? max_str_digits)%nat then
    match int_digits 0 false body with
    | Some n => Some (if neg then (- n)%Z else n)
    | None => None
    end
  else None.

(** What [float] does with underscores before it reads the number: each must
    follow a digit and precede one; they are then dropped. *)
Fixpoint drop_underscores (prev : bool) (s : list ascii) : option (list ascii) :=
  match s with
  | [] => Some []
  | c :: r =>
      if Ascii.eqb c "_" then
        match r with
        | d :: _ => if prev && is_digit d then drop_underscores false r else None
        | [] => None
        end
      else option_map (cons c) (drop_underscores (is_digit c) r)
  end.

Fixpoint span_digits (s : list ascii) : list ascii * list ascii :=
  match s with
  | c :: r =>
      if is_digit c then let (ds, rest) := span_digits r in (c :: ds, rest)
      else ([], s)
  | [] => ([], [])
  end.

Definition digits_val (ds : list ascii) : Z :=
  fold_left (fun acc c => (acc * 10 + digit_val c)%Z) ds 0%Z.

(** The exponent part: nothing, or [e]/[E], an optional sign and at least one
    digit; the whole rest of the text must be consumed. *)
Definition exponent (s : list ascii) : option Z :=
  match s with
  | [] => Some 0%Z
  | c :: r =>
      if Ascii.eqb (to_lower c) "e" then
        let (neg, r') := take_sign r in
        match span_digits r' with
        | ((_ :: _) as ds, []) =>
            Some (if neg then (- digits_val ds)%Z else digits_val ds)
        | _ => None
        end
      else None
  end.

(** A decimal literal without its sign: digits, an optional point and more
    digits, at least one digit in all, then the exponent part. *)
Definition decimal (neg : bool) (s : list ascii) : option PyFloat.float :=
  let (ip, r1) := span_digits s in
  let (fp, r2) :=
    match r1 with
    | "." :: r => span_digits r
    | _ => ([], r1)
    end in
  match ip ++ fp with
  | [] => None
  | ds =>
      match exponent r2 with
      | Some e =>
          Some (PyFloat.of_decimal neg (digits_val ds)
                                   (e - Z.of_nat (List.length fp)))
      | None => None
      end
  end.

(** [float(s)] for a [str]. *)
Definition py_float (s : string) : option PyFloat.float :=
  match drop_underscores false (strip (list_ascii_of_string s)) with
  | None => None
  | Some t =>
      let (neg, body) := take_sign t in
      let low := string_of_list_ascii (map to_lower body) in
      if (String.eqb low "inf" || String.eqb low "infinity")%bool
      then Some (S754_infinity neg)
      else if String.eqb low "nan" then Some S754_nan
      else decimal neg body
  end.

(** Truth value of a parameter: [None] and the empty string are false. *)
Definition truthy (v : option string) : bool :=
  match v with
  | None => false
  | Some s => negb (String.eqb s "")
  end.

End PyBuiltin.

(** ** The host framework as the algorithm sees it *)

Inductive Market := Oanda.
Inductive Resolution := Minute.
Inductive MovingAverageType := Simple.

(** The symbol of the security [AddForex] adds: the pair and its market. *)
Record Symbol := mkSymbol { ticker : string; market : Market }.

Record Security := { Price : PyFloat.float }.
Record SecurityHolding := { Invested : bool }.

(** The current values of the three bands of [self.bb]
    ([self.bb.LowerBand.Current.Value] and so on). *)
Record BollingerBands := {
  UpperBand : PyFloat.float;
  MiddleBand : PyFloat.float;
  LowerBand : PyFloat.float
}.

(** The two messages [TradeLogic] formats with an f-string; their arguments
    are kept instead of the formatted text. *)
Inductive DebugMessage :=
| LongEntryMsg (price lower : PyFloat.float)
| ExitMsg (price middle : PyFloat.float).

Inductive DateRule := EveryDay (s : Symbol).
Inductive TimeRule := EveryMinute (s : Symbol).
Inductive Callback := TradeLogicMethod.

(** Calls the two methods make on the host, in the order of the trace. *)
Inductive HostCall :=
| SetStartDate (year month day : Z)
| SetEndDate (year month day : Z)
| SetCash (cash : Z)
| AddForex (pair : string) (r : Resolution) (m : Market)
| BB (s : Symbol) (period : Z) (k : PyFloat.float)
     (ma : MovingAverageType) (r : Resolution)
| SetWarmUp (period : Z)
| ScheduleOn (d : DateRule) (t : TimeRule) (f : Callback)
| SetHoldings (s : Symbol) (target : PyFloat.float)
| Liquidate (s : Symbol)
| Debug (m : DebugMessage).

(** The attributes [Initialize] assigns. *)
Record Attributes := {
  currencyPair : string;
  bb_period : Z;
  bb_stddev : PyFloat.float;
  symbol : Symbol
}.

(** Everything [TradeLogic] can read through [self]: the attributes and the
    ambient framework state.  [Securities] and [Portfolio] are indexed by
    symbol, as in the source; [AddForex] registered the symbol, so both
    lookups are defined. *)
Record Algorithm := {
  attributes :> Attributes;
  bb : BollingerBands;
  IsWarmingUp : bool;
  Securities : Symbol -> Security;
  Portfolio : Symbol -> SecurityHolding
}.

(** ** A method run: the host calls made, then a value or an exception *)

Inductive PyError := ValueError.

Definition Run (A : Type) : Type := (list HostCall * (PyError + A))%type.

Definition ret {A} (a : A) : Run A := ([], inr a).

Definition raise {A} (e : PyError) : Run A := ([], inl e).

Definition bind {A B} (m : Run A) (f : A -> Run B) : Run B :=
  match m with
  | (t, inl e) => (t, inl e)
  | (t, inr a) => let (t', r) := f a in (t ++ t', r)
  end.

Definition call (c : HostCall) : Run unit := ([c], inr tt).

(** A conversion that raises [ValueError] when the builtin does. *)
Definition convert {A} (o : option A) : Run A :=
  match o with
  | Some a => ret a
  | None => raise ValueError
  end.

Definition trace {A} (m : Run A) : list HostCall := fst m.
Definition outcome {A} (m : Run A) : PyError + A := snd m.

Declare Scope run_scope.
Delimit Scope run_scope with run.
Notation "x <- m ;; k" := (bind m (fun x => k))
  (at level 61, m at next level, right associativity) : run_scope.
Notation "m ;; k" := (bind m (fun _ => k))
  (at level 61, right associativity) : run_scope.

(** ** The algorithm *)

(** [Initialize], lines 20-51.  [GetParameter] is the host's parameter
    lookup: [None] when the parameter is not set. *)
Definition Initialize (GetParameter : string -> option string) : Run Attributes :=
  (call (SetStartDate 2022 1 1) ;;
   call (SetEndDate 2022 12 31) ;;
   call (SetCash 100000) ;;
   let pair := GetParameter "pair"%string in
   let pair := if negb (PyBuiltin.truthy pair) then Some "EURUSD"%string else pair in
   let currencyPair := match pair with Some s => s | None => EmptyString end in
   let bb_period_param := GetParameter "bb_period"%string in
   let bb_stddev_param := GetParameter "bb_stddev"%string in
   bb_period <- match bb_period_param with
                | Some s => convert (PyBuiltin.py_int s)
                | None => ret 20%Z
                end ;;
   bb_stddev <- match bb_stddev_param with
                | Some s => convert (PyBuiltin.py_float s)
                | None => ret PyFloat.two
                end ;;
   call (AddForex currencyPair Minute Oanda) ;;
   let symbol := mkSymbol currencyPair Oanda in
   call (BB symbol bb_period bb_stddev Simple Minute) ;;
   call (SetWarmUp bb_period) ;;
   call (ScheduleOn (EveryDay symbol) (EveryMinute symbol) TradeLogicMethod) ;;
   ret {| currencyPair := currencyPair;
          bb_period := bb_period;
          bb_stddev := bb_stddev;
          symbol := symbol |})%run.

Inductive Decision := ENTER | EXIT | HOLD.

(** [TradeLogic], lines 53-71: the host calls of one tick. *)
Definition TradeLogic (self : Algorithm) : list HostCall :=
  if IsWarmingUp self then []
  else
    let price := Price (Securities self (symbol self)) in
    if negb (Invested (Portfolio self (symbol self)))
       && PyFloat.ltb price (LowerBand (bb self))
    then [ SetHoldings (symbol self) PyFloat.one;
           Debug (LongEntryMsg price (LowerBand (bb self))) ]
    else if Invested (Portfolio self (symbol self))
            && PyFloat.gtb price (MiddleBand (bb self))
    then [ Liquidate (symbol self);
           Debug (ExitMsg price (MiddleBand (bb self))) ]
    else [].

(** The [if]/[elif] of lines 63 and 69 alone, with the branch taken as the
    result: the signal evaluation. *)
Definition evaluate (price : PyFloat.float) (band : BollingerBands)
           (invested : bool) : Decision :=
  if negb invested && PyFloat.ltb price (LowerBand band) then ENTER
  else if invested && PyFloat.gtb price (MiddleBand band) then EXIT
  else HOLD.

(** The price and the position flag a tick reads. *)
Definition tick_price (self : Algorithm) : PyFloat.float :=
  Price (Securities self (symbol self)).

Definition tick_invested (self : Algorithm) : bool :=
  Invested (Portfolio self (symbol self)).

(** Reading a trace back: which order, if any, a tick placed. *)
Definition is_order (c : HostCall) : bool :=
  match c with
  | SetHoldings _ _ | Liquidate _ => true
  | _ => false
  end.

Definition is_entry (c : HostCall) : bool :=
  match c with SetHoldings _ _ => true | _ => false end.

Definition is_exit (c : HostCall) : bool :=
  match c with Liquidate _ => true | _ => false end.

Definition orders (t : list HostCall) : list HostCall := filter is_order t.

Definition decision_of (t : list HostCall) : Decision :=
  if existsb is_entry t then ENTER
  else if existsb is_exit t then EXIT
  else HOLD.

(** The host's parameter table as a list of settings, first match wins. *)
Definition parameters (l : list (string * string)) (name : string) : option string :=
  match find (fun p => String.eqb (fst p) name) l with
  | Some p => Some (snd p)
  | None => None
  end.

(** ** The rolling band indicator of the specification *)

Module Indicator.

Local Open Scope R_scope.

(** Modelled from the spec: the two errors of the indicator (section 7);
    the indicator is the host framework's and is not part of the script. *)
Inductive Error := InvalidParameter | NotReady.

(** Modelled from the spec: the indicator behind [self.BB] is the host
    framework's and no code of it is in the script.  The state is the one of
    the data model: the two construction parameters, the window (oldest
    observation first), the ready flag and the cached mean and variance. *)
Record RollingBandIndicator := {
  period : nat;
  multiplier : R;
  window : list R;
  ready : bool;
  mean : R;
  variance : R
}.

Definition total (xs : list R) : R := fold_right Rplus 0 xs.

(** Modelled from the spec: the mean and the population variance the
    indicator caches, over the window and with divisor [period]. *)
Definition window_mean (n : nat) (w : list R) : R := total w / INR n.

(** Modelled from the spec: the population variance of the missing
    indicator, the squared deviations from the mean divided by [period]. *)
Definition window_variance (n : nat) (w : list R) : R :=
  total (map (fun x => (x - window_mean n w) * (x - window_mean n w)) w) / INR n.

(** Modelled from the spec: [construct] fails with [InvalidParameter] if
    [period <= 0] or [multiplier <= 0]; otherwise the window is empty and
    the indicator is not ready. *)
Definition construct (p : Z) (k : R) : Error + RollingBandIndicator :=
  if (p <=? 0)%Z then inl InvalidParameter
  else if Rle_dec k 0 then inl InvalidParameter
  else inr {| period := Z.to_nat p; multiplier := k; window := [];
              ready := false; mean := 0; variance := 0 |}.

(** Modelled from the spec: [observe] appends the price, evicting the oldest
    element if the window already holds [period] elements, sets [ready] when
    the window reaches [period] elements, and recomputes the cached mean and
    variance from the window. *)
Definition observe (price : R) (ind : RollingBandIndicator) : RollingBandIndicator :=
  let w := if (period ind <=? List.length (window ind))%nat
           then tl (window ind) ++ [price]
           else window ind ++ [price] in
  {| period := period ind;
     multiplier := multiplier ind;
     window := w;
     ready := ready ind || (List.length w =? period ind)%nat;
     mean := window_mean (period ind) w;
     variance := window_variance (period ind) w |}.

(** Feeding a run of prices, one [observe] per tick, oldest first. *)
Definition observe_all (prices : list R) (ind : RollingBandIndicator) : RollingBandIndicator :=
  fold_left (fun i x => observe x i) prices ind.

(** Modelled from the spec: [is_ready] of the missing indicator, true once
    at least [period] observations have been made. *)
Definition is_ready (ind : RollingBandIndicator) : bool := ready ind.

(** Modelled from the spec: the accessors of the missing indicator fail
    with [NotReady] while it is not ready and return the band values
    otherwise; [middle] is the mean. *)
Definition middle (ind : RollingBandIndicator) : Error + R :=
  if is_ready ind then inr (mean ind) else inl NotReady.

(** Modelled from the spec: [upper] of the missing indicator, the mean plus
    [multiplier] standard deviations. *)
Definition upper (ind : RollingBandIndicator) : Error + R :=
  if is_ready ind then inr (mean ind + multiplier ind * sqrt (variance ind))
  else inl NotReady.

(** Modelled from the spec: [lower] of the missing indicator, the mean
    minus [multiplier] standard deviations. *)
Definition lower (ind : RollingBandIndicator) : Error + R :=
  if is_ready ind then inr (mean ind - multiplier ind * sqrt (variance ind))
  else inl NotReady.

(** The reference definitions over a list of observations: the mean, the
    population variance (divisor: the number of observations) and, for
    contrast, the sample variance (one less). *)
Definition reference_mean (xs : list R) : R := total xs / INR (List.length xs).

Definition squared_deviations (xs : list R) : R :=
  total (map (fun x => (x - reference_mean xs) * (x - reference_mean xs)) xs).

Definition population_variance (xs : list R) : R :=
  squared_deviations xs / INR (List.length xs).

Definition sample_variance (xs : list R) : R :=
  squared_deviations xs / INR (List.length xs - 1).

End Indicator.

(** ** Auxiliary definitions for the statements *)

(** The three values [Initialize] settles on, read off the parameters. *)
Definition requested_pair (G : string -> option string) : string :=
  match G "pair"%string with
  | Some s => if String.eqb s "" then "EURUSD"%string else s
  | None => "EURUSD"%string
  end.

Definition requested_period (G : string -> option string) : option Z :=
  match G "bb_period"%string with
  | Some s => PyBuiltin.py_int s
  | None => Some 20%Z
  end.

Definition requested_stddev (G : string -> option string) : option PyFloat.float :=
  match G "bb_stddev"%string with
  | Some s => PyBuiltin.py_float s
  | None => Some PyFloat.two
  end.

(** The calls made before the parameters are read. *)
Definition preamble : list HostCall :=
  [SetStartDate 2022 1 1; SetEndDate 2022 12 31; SetCash 100000].

(** The calls made once the three values are known. *)
Definition setup (pair : string) (n : Z) (k : PyFloat.float) : list HostCall :=
  [ AddForex pair Minute Oanda;
    BB (mkSymbol pair Oanda) n k Simple Minute;
    SetWarmUp n;
    ScheduleOn (EveryDay (mkSymbol pair Oanda))
               (EveryMinute (mkSymbol pair Oanda)) TradeLogicMethod ].

(** The last [n] elements of a list, in order. *)
Definition last_n {A} (n : nat) (l : list A) : list A :=
  skipn (List.length l - n) l.

(** Sample runs: the scenario of the specification (period 3, multiplier 2),
    a run that is too short, and one that overflows the window. *)
Definition scenario_run : list R := [10; 10; 10; 13]%R.
Definition short_run : list R := [10; 10]%R.
Definition long_run : list R := [7; 8; 10; 10; 13]%R.

(** Two ticks past the warm-up that read the same price, lower and middle
    band and position flag, and differ in everything else. *)
Definition tick_a : Algorithm :=
  {| attributes := {| currencyPair := "EURUSD"; bb_period := 3;
                      bb_stddev := PyFloat.two;
                      symbol := mkSymbol "EURUSD" Oanda |};
     bb := {| UpperBand := PyFloat.of_decimal false 1383 (-2);
              MiddleBand := PyFloat.of_Z 11;
              LowerBand := PyFloat.of_decimal false 817 (-2) |};
     IsWarmingUp := false;
     Securities := fun _ => {| Price := PyFloat.of_Z 7 |};
     Portfolio := fun _ => {| Invested := false |} |}.

Definition tick_b : Algorithm :=
  {| attributes := {| currencyPair := "GBPUSD"; bb_period := 20;
                      bb_stddev := PyFloat.of_decimal false 25 (-1);
                      symbol := mkSymbol "GBPUSD" Oanda |};
     bb := {| UpperBand := PyFloat.of_Z 99;
              MiddleBand := PyFloat.of_Z 11;
              LowerBand := PyFloat.of_decimal false 817 (-2) |};
     IsWarmingUp := false;
     Securities := fun s => if String.eqb (ticker s) "GBPUSD"
                            then {| Price := PyFloat.of_Z 7 |}
                            else {| Price := PyFloat.of_Z 1000 |};
     Portfolio := fun s => {| Invested := negb (String.eqb (ticker s) "GBPUSD") |} |}.

(** A parameter table with a zero period and a negative multiplier. *)
Definition nonpositive_parameters : string -> option string :=
  parameters [("bb_period", "0"); ("bb_stddev", "-2")]%string.

(** ** Runs of ticks *)

(** The position flag the next tick reads when the host fills every order of
    a tick before the next one: a [SetHoldings] opens the position, a
    [Liquidate] closes it, anything else leaves it. *)
Definition position_after (invested : bool) (calls : list HostCall) : bool :=
  fold_left (fun inv c =>
               match c with
               | SetHoldings _ _ => true
               | Liquidate _ => false
               | _ => inv
               end) calls invested.

(** A run of ticks, oldest first, in which each tick reads the position the
    tick before left. *)
Fixpoint filled_run (states : list Algorithm) : Prop :=
  match states with
  | s :: ((s' :: _) as rest) =>
      tick_invested s' = position_after (tick_invested s) (TradeLogic s) /\
      filled_run rest
  | _ => True
  end.

Definition is_signal (d : Decision) : bool :=
  match d with HOLD => false | _ => true end.

(** The entries and exits of a run, in order. *)
Definition signals (states : list Algorithm) : list Decision :=
  filter is_signal (map (fun s => decision_of (TradeLogic s)) states).

(** Entries and exits take turns, starting with an exit when a position is
    held and with an entry otherwise. *)
Fixpoint alternates (invested : bool) (l : list Decision) : bool :=
  match l with
  | [] => true
  | d :: r =>
      match d, invested with
      | EXIT, true | ENTER, false => alternates (negb invested) r
      | _, _ => false
      end
  end.

(** The position flag the first tick of a run reads. *)
Definition opening_position (states : list Algorithm) : bool :=
  match states with
  | s :: _ => tick_invested s
  | [] => false
  end.

(** A tick like [tick_a] at another price and position. *)
Definition tick_at (price : PyFloat.float) (invested : bool) : Algorithm :=
  {| attributes := attributes tick_a;
     bb := bb tick_a;
     IsWarmingUp := false;
     Securities := fun _ => {| Price := price |};
     Portfolio := fun _ => {| Invested := invested |} |}.

(** Enter at 7, hold at 9, exit at 13, hold at 13, enter again at 8. *)
Definition sample_ticks : list Algorithm :=
  [ tick_at (PyFloat.of_Z 7) false; tick_at (PyFloat.of_Z 9) true;
    tick_at (PyFloat.of_Z 13) true; tick_at (PyFloat.of_Z 13) false;
    tick_at (PyFloat.of_Z 8) false ].

(** Bands the wrong way round, as a negative multiplier gives them: the
    lower band 12 above the middle band 11. *)
Definition inverted_band : BollingerBands :=
  {| UpperBand := PyFloat.of_Z 10;
     MiddleBand := PyFloat.of_Z 11;
     LowerBand := PyFloat.of_Z 12 |}.

(** ** Parameter texts *)

(** The decimal text of an integer, as [str] prints it: "-3", "0", "20". *)
Definition decimal_text (n : Z) : string :=
  DecimalString.NilZero.string_of_int (Z.to_int n).

(** The digits of a text, as the limit of [int] counts them. *)
Definition digit_count (s : string) : nat :=
  PyBuiltin.count_digits (list_ascii_of_string s).

(** The characters an integer literal is made of: digits, whitespace, the
    two signs and the underscore. *)
Definition int_char (c : ascii) : bool :=
  PyBuiltin.is_digit c || PyBuiltin.is_space c
  || Ascii.eqb c "+" || Ascii.eqb c "-" || Ascii.eqb c "_".

(** ASCII text, the text the two conversions are modelled on. *)
Definition ascii_text (s : string) : bool :=
  forallb (fun c => (nat_of_ascii c <? 128)%nat) (list_ascii_of_string s).

(** The value of a decimal numeral read from the left onto an accumulator. *)
Fixpoint uint_val (d : Decimal.uint) (acc : Z) : Z :=
  match d with
  | Decimal.Nil => acc
  | Decimal.D0 l => uint_val l (acc * 10 + 0)
  | Decimal.D1 l => uint_val l (acc * 10 + 1)
  | Decimal.D2 l => uint_val l (acc * 10 + 2)
  | Decimal.D3 l => uint_val l (acc * 10 + 3)
  | Decimal.D4 l => uint_val l (acc * 10 + 4)
  | Decimal.D5 l => uint_val l (acc * 10 + 5)
  | Decimal.D6 l => uint_val l (acc * 10 + 6)
  | Decimal.D7 l => uint_val l (acc * 10 + 7)
  | Decimal.D8 l => uint_val l (acc * 10 + 8)
  | Decimal.D9 l => uint_val l (acc * 10 + 9)
  end%Z.

(** The characters of a numeral. *)
Definition digits_of (d : Decimal.uint) : list ascii :=
  list_ascii_of_string (DecimalString.NilEmpty.string_of_uint d).

(** * Properties of the trade logic *)

(** ** Comparisons *)

Section Comparisons.
Local Open Scope pyfloat_scope.

Variables x y : PyFloat.float.

Lemma geb_not_ltb : (x >=? y) = true -> (x <? y) = false.
Proof.
  unfold PyFloat.geb, PyFloat.ltb.
  destruct (SFcompare x y) as [[ | | ] | ]; intros H; congruence.
Qed.

Lemma leb_not_gtb : (x <=? y) = true -> (x >? y) = false.
Proof.
  unfold PyFloat.leb, PyFloat.gtb.
  destruct (SFcompare x y) as [[ | | ] | ]; intros H; congruence.
Qed.

Lemma ltb_not_gtb : (x <? y) = true -> (x >? y) = false.
Proof.
  unfold PyFloat.ltb, PyFloat.gtb.
  destruct (SFcompare x y) as [[ | | ] | ]; intros H; congruence.
Qed.

End Comparisons.

(** ** The decision rule *)

Lemma evaluate_not_invested (price : PyFloat.float) (band : BollingerBands) :
  evaluate price band false =
  if PyFloat.ltb price (LowerBand band) then ENTER else HOLD.
Proof. unfold evaluate; simpl. now destruct (PyFloat.ltb _ _). Qed.

Lemma evaluate_invested (price : PyFloat.float) (band : BollingerBands) :
  evaluate price band true =
  if PyFloat.gtb price (MiddleBand band) then EXIT else HOLD.
Proof. reflexivity. Qed.

(** The upper band plays no part in the decision. *)
Lemma evaluate_bands (price : PyFloat.float) (b1 b2 : BollingerBands) (invested : bool) :
  LowerBand b1 = LowerBand b2 -> MiddleBand b1 = MiddleBand b2 ->
  evaluate price b1 invested = evaluate price b2 invested.
Proof. unfold evaluate. now intros -> ->. Qed.

(** The trace of [TradeLogic] is the one of the branch [evaluate] selects. *)
Lemma TradeLogic_trace (self : Algorithm) :
  TradeLogic self =
  if IsWarmingUp self then []
  else match evaluate (tick_price self) (bb self) (tick_invested self) with
       | ENTER => [ SetHoldings (symbol self) PyFloat.one;
                    Debug (LongEntryMsg (tick_price self) (LowerBand (bb self))) ]
       | EXIT => [ Liquidate (symbol self);
                   Debug (ExitMsg (tick_price self) (MiddleBand (bb self))) ]
       | HOLD => []
       end.
Proof.
  unfold TradeLogic, evaluate, tick_price, tick_invested.
  destruct (IsWarmingUp self); [reflexivity|].
  destruct (negb _ && _); [reflexivity|].
  destruct (Invested _ && _); reflexivity.
Qed.

Lemma TradeLogic_decision (self : Algorithm) :
  decision_of (TradeLogic self) =
  if IsWarmingUp self then HOLD
  else evaluate (tick_price self) (bb self) (tick_invested self).
Proof.
  rewrite TradeLogic_trace.
  destruct (IsWarmingUp self); [reflexivity|].
  destruct (evaluate _ _ _); reflexivity.
Qed.

Lemma evaluate_ENTER (price : PyFloat.float) (band : BollingerBands) (invested : bool) :
  evaluate price band invested = ENTER <->
  invested = false /\ PyFloat.ltb price (LowerBand band) = true.
Proof.
  destruct invested;
    [rewrite evaluate_invested; destruct (PyFloat.gtb _ _)
    |rewrite evaluate_not_invested; destruct (PyFloat.ltb _ _)];
    intuition congruence.
Qed.

Lemma evaluate_EXIT (price : PyFloat.float) (band : BollingerBands) (invested : bool) :
  evaluate price band invested = EXIT <->
  invested = true /\ PyFloat.gtb price (MiddleBand band) = true.
Proof.
  destruct invested;
    [rewrite evaluate_invested; destruct (PyFloat.gtb _ _)
    |rewrite evaluate_not_invested; destruct (PyFloat.ltb _ _)];
    intuition congruence.
Qed.

(** C1. The signal evaluation follows the priority order of the source: not
    invested and price strictly below the lower band gives ENTER; otherwise
    invested and price strictly above the middle band gives EXIT; otherwise
    HOLD.  In particular not invested with [price >= lower] is HOLD and
    invested with [price <= middle] is HOLD; and a tick of [TradeLogic] past
    the warm-up acts on exactly that decision. *)
Theorem evaluate_priority :
  forall (price : PyFloat.float) (band : BollingerBands) (invested : bool),
    evaluate price band invested =
      (if negb invested && PyFloat.ltb price (LowerBand band) then ENTER
       else if invested && PyFloat.gtb price (MiddleBand band) then EXIT
       else HOLD) /\
    (invested = false -> PyFloat.ltb price (LowerBand band) = true ->
     evaluate price band invested = ENTER) /\
    (invested = true -> PyFloat.gtb price (MiddleBand band) = true ->
     evaluate price band invested = EXIT) /\
    (invested = false -> PyFloat.geb price (LowerBand band) = true ->
     evaluate price band invested = HOLD) /\
    (invested = true -> PyFloat.leb price (MiddleBand band) = true ->
     evaluate price band invested = HOLD) /\
    (forall self : Algorithm,
        IsWarmingUp self = false ->
        tick_price self = price -> bb self = band ->
        tick_invested self = invested ->
        decision_of (TradeLogic self) = evaluate price band invested).
Proof.
  intros price band invested.
  split; [reflexivity|].
  split; [|split; [|split; [|split]]].
  - intros -> H. now rewrite evaluate_not_invested, H.
  - intros -> H. now rewrite evaluate_invested, H.
  - intros -> H. now rewrite evaluate_not_invested, (geb_not_ltb _ _ H).
  - intros -> H. now rewrite evaluate_invested, (leb_not_gtb _ _ H).
  - intros self Hw <- <- <-. now rewrite TradeLogic_decision, Hw.
Qed.

(** C8. The evaluation is deterministic and keeps no state: two ticks past
    the warm-up that read the same price, the same lower and middle band and
    the same position flag take the same decision, whatever else differs
    between the two algorithm states (pair, symbol, parameters, upper band,
    other securities); that decision is [evaluate] of the three inputs, also
    after any sequence of earlier ticks. *)
Theorem evaluate_stateless :
  forall s1 s2 : Algorithm,
    IsWarmingUp s1 = false -> IsWarmingUp s2 = false ->
    tick_price s1 = tick_price s2 ->
    LowerBand (bb s1) = LowerBand (bb s2) ->
    MiddleBand (bb s1) = MiddleBand (bb s2) ->
    tick_invested s1 = tick_invested s2 ->
    decision_of (TradeLogic s1) = decision_of (TradeLogic s2) /\
    decision_of (TradeLogic s1) =
      evaluate (tick_price s1) (bb s1) (tick_invested s1) /\
    forall earlier : list Algorithm,
      last (map (fun s => decision_of (TradeLogic s)) (earlier ++ [s1])) HOLD =
      last (map (fun s => decision_of (TradeLogic s)) (earlier ++ [s2])) HOLD.
Proof.
  intros s1 s2 W1 W2 Hp Hl Hm Hi.
  assert (E : decision_of (TradeLogic s1) = decision_of (TradeLogic s2)).
  { rewrite !TradeLogic_decision, W1, W2, Hp, Hi. now apply evaluate_bands. }
  split; [exact E|]. split.
  - now rewrite TradeLogic_decision, W1.
  - intros earlier. rewrite !map_app. cbn [map]. rewrite !last_last. exact E.
Qed.

Lemma evaluate_stateless_witness :
  IsWarmingUp tick_a = false /\ IsWarmingUp tick_b = false /\
  tick_price tick_a = tick_price tick_b /\
  LowerBand (bb tick_a) = LowerBand (bb tick_b) /\
  MiddleBand (bb tick_a) = MiddleBand (bb tick_b) /\
  tick_invested tick_a = tick_invested tick_b /\
  decision_of (TradeLogic tick_a) = decision_of (TradeLogic tick_b) /\
  decision_of (TradeLogic tick_a) =
    evaluate (tick_price tick_a) (bb tick_a) (tick_invested tick_a).
Proof.
  do 6 (split; [reflexivity|]).
  destruct (evaluate_stateless tick_a tick_b) as (E1 & E2 & _);
    try reflexivity.
  split; [exact E1|exact E2].
Defined.

(** The scenario of the specification: with the lower band at 8.17 and no
    position, a price of 13 holds and a price of 7 enters; in a position, a
    price above the middle band 11 exits. *)
Example scenario_decisions :
  evaluate (PyFloat.of_Z 13) (bb tick_a) false = HOLD /\
  evaluate (PyFloat.of_Z 7) (bb tick_a) false = ENTER /\
  evaluate (PyFloat.of_Z 13) (bb tick_a) true = EXIT /\
  evaluate (PyFloat.of_Z 11) (bb tick_a) true = HOLD /\
  evaluate (PyFloat.of_decimal false 817 (-2)) (bb tick_a) false = HOLD /\
  evaluate S754_nan (bb tick_a) false = HOLD /\
  TradeLogic tick_a =
    [ SetHoldings (mkSymbol "EURUSD" Oanda) PyFloat.one;
      Debug (LongEntryMsg (PyFloat.of_Z 7) (PyFloat.of_decimal false 817 (-2))) ].
Proof. repeat split; vm_compute; reflexivity. Qed.

(** C9. A tick places at most one order.  It enters, with [SetHoldings] at
    target 1.0 on the algorithm's symbol, exactly when it is past the warm-up,
    not invested and the price is strictly below the lower band; it
    liquidates that symbol exactly when it is past the warm-up, invested and
    the price is strictly above the middle band; in every other case, every
    tick of the warm-up included, it makes no host call at all; and it never
    both enters and exits. *)
Theorem TradeLogic_frame :
  forall self : Algorithm,
    (List.length (orders (TradeLogic self)) <= 1)%nat /\
    (existsb is_entry (TradeLogic self) = true <->
     IsWarmingUp self = false /\ tick_invested self = false /\
     PyFloat.ltb (tick_price self) (LowerBand (bb self)) = true) /\
    (existsb is_exit (TradeLogic self) = true <->
     IsWarmingUp self = false /\ tick_invested self = true /\
     PyFloat.gtb (tick_price self) (MiddleBand (bb self)) = true) /\
    (forall c, In c (orders (TradeLogic self)) ->
               c = SetHoldings (symbol self) PyFloat.one \/
               c = Liquidate (symbol self)) /\
    (IsWarmingUp self = true -> TradeLogic self = []) /\
    (existsb is_entry (TradeLogic self) = false ->
     existsb is_exit (TradeLogic self) = false -> TradeLogic self = []) /\
    ~ (existsb is_entry (TradeLogic self) = true /\
       existsb is_exit (TradeLogic self) = true).
Proof.
  intros self.
  assert (HE := evaluate_ENTER (tick_price self) (bb self) (tick_invested self)).
  assert (HX := evaluate_EXIT (tick_price self) (bb self) (tick_invested self)).
  rewrite TradeLogic_trace.
  destruct (IsWarmingUp self).
  - simpl. intuition (try congruence; try lia).
  - destruct (evaluate _ _ _); simpl;
      intuition (subst; try congruence; try lia; auto).
Qed.

(** * Properties of the initialization *)

Lemma Initialize_closed_form (G : string -> option string) :
  Initialize G =
  match requested_period G, requested_stddev G with
  | Some n, Some k =>
      (preamble ++ setup (requested_pair G) n k,
       inr {| currencyPair := requested_pair G; bb_period := n;
              bb_stddev := k; symbol := mkSymbol (requested_pair G) Oanda |})
  | _, _ => (preamble, inl ValueError)
  end.
Proof.
  unfold Initialize, requested_period, requested_stddev, requested_pair,
    PyBuiltin.truthy.
  destruct (G "pair"%string) as [p|]; [destruct (String.eqb p "")|];
    (destruct (G "bb_period"%string) as [sp|];
     [destruct (PyBuiltin.py_int sp)|];
     (destruct (G "bb_stddev"%string) as [sk|];
      [destruct (PyBuiltin.py_float sk)|]));
    reflexivity.
Qed.

(** The two conversions on a few texts, as CPython gives them. *)
Example py_int_examples :
  PyBuiltin.py_int "20" = Some 20%Z /\
  PyBuiltin.py_int " -5 " = Some (-5)%Z /\
  PyBuiltin.py_int "+1_000" = Some 1000%Z /\
  PyBuiltin.py_int "007" = Some 7%Z /\
  PyBuiltin.py_int "2.0" = None /\
  PyBuiltin.py_int "1e3" = None /\
  PyBuiltin.py_int "1__0" = None /\
  PyBuiltin.py_int "- 5" = None /\
  PyBuiltin.py_int " " = None.
Proof. repeat split; vm_compute; reflexivity. Qed.

Example py_float_examples :
  PyBuiltin.py_float "2.0" = Some PyFloat.two /\
  PyBuiltin.py_float " 2 " = Some PyFloat.two /\
  PyBuiltin.py_float "20e-1" = Some PyFloat.two /\
  PyBuiltin.py_float "-0" = Some (S754_zero true) /\
  PyBuiltin.py_float "0.1" = Some (S754_finite false 7205759403792794 (-56)) /\
  PyBuiltin.py_float "-Infinity" = Some (S754_infinity true) /\
  PyBuiltin.py_float "NaN" = Some S754_nan /\
  PyBuiltin.py_float "1e400" = Some (S754_infinity false) /\
  PyBuiltin.py_float "1_.5" = None /\
  PyBuiltin.py_float "1e" = None /\
  PyBuiltin.py_float "." = None /\
  PyBuiltin.py_float "2.0f" = None.
Proof. repeat split; vm_compute; reflexivity. Qed.

(** The warm-up [Initialize] asks for is as long as the period it gives the
    indicator, and a tick of the warm-up reads no band and makes no call. *)
Lemma warm_up_guard (G : string -> option string) (a : Attributes) :
  outcome (Initialize G) = inr a ->
  In (BB (symbol a) (bb_period a) (bb_stddev a) Simple Minute)
     (trace (Initialize G)) /\
  In (SetWarmUp (bb_period a)) (trace (Initialize G)) /\
  forall self : Algorithm, IsWarmingUp self = true -> TradeLogic self = [].
Proof.
  rewrite Initialize_closed_form.
  destruct (requested_period G) as [n|]; [|discriminate].
  destruct (requested_stddev G) as [k|]; [|discriminate].
  unfold outcome, trace. cbn [fst snd]. intros [= <-]. cbn.
  split; [tauto|]. split; [tauto|].
  intros self Hw. unfold TradeLogic. now rewrite Hw.
Qed.

(** C10. The defaults are not applied alike.  The pair falls back to
    "EURUSD" when the parameter is absent or empty; the period 20 and the
    multiplier 2.0 are used only when the parameter is absent.  A period or
    multiplier that is present goes through [int] or [float]: if the
    conversion fails (as for the empty text or for "abc") [Initialize] raises
    [ValueError], having made only the three calls before, and if it
    succeeds the value is used as it is, non-positive ones included: with
    [bb_period = "0"] the indicator and the warm-up are set up with 0. *)
Theorem Initialize_defaulting :
  forall G : string -> option string,
    (forall a : Attributes,
        outcome (Initialize G) = inr a ->
        (G "pair"%string = None \/ G "pair"%string = Some ""%string ->
         currencyPair a = "EURUSD"%string) /\
        (forall s, G "pair"%string = Some s -> s <> ""%string ->
                   currencyPair a = s) /\
        (G "bb_period"%string = None -> bb_period a = 20%Z) /\
        (G "bb_stddev"%string = None -> bb_stddev a = PyFloat.two) /\
        (forall s, G "bb_period"%string = Some s ->
                   PyBuiltin.py_int s = Some (bb_period a)) /\
        (forall s, G "bb_stddev"%string = Some s ->
                   PyBuiltin.py_float s = Some (bb_stddev a)) /\
        symbol a = mkSymbol (currencyPair a) Oanda /\
        trace (Initialize G) =
          preamble ++ setup (currencyPair a) (bb_period a) (bb_stddev a)) /\
    (forall s, G "bb_period"%string = Some s -> PyBuiltin.py_int s = None ->
               Initialize G = (preamble, inl ValueError)) /\
    (forall s, G "bb_stddev"%string = Some s -> PyBuiltin.py_float s = None ->
               Initialize G = (preamble, inl ValueError)) /\
    (forall n k, requested_period G = Some n -> requested_stddev G = Some k ->
                 exists a, outcome (Initialize G) = inr a /\
                           bb_period a = n /\ bb_stddev a = k) /\
    PyBuiltin.py_int "" = None /\ PyBuiltin.py_float "" = None /\
    PyBuiltin.py_int "abc" = None /\ PyBuiltin.py_float "abc" = None /\
    PyBuiltin.py_int "0" = Some 0%Z /\
    Initialize (parameters [("bb_period", "0")]%string) =
      (preamble ++ setup "EURUSD" 0 PyFloat.two,
       inr {| currencyPair := "EURUSD"; bb_period := 0;
              bb_stddev := PyFloat.two;
              symbol := mkSymbol "EURUSD" Oanda |}).
Proof.
  intros G.
  split; [|split; [|split; [|split]]].
  - intros a. rewrite Initialize_closed_form.
    unfold requested_period, requested_stddev, requested_pair.
    destruct (G "pair"%string) as [p|];
      [destruct (String.eqb_spec p "")|];
      (destruct (G "bb_period"%string) as [sp|];
       [destruct (PyBuiltin.py_int sp) eqn:Ei|];
       (destruct (G "bb_stddev"%string) as [sk|];
        [destruct (PyBuiltin.py_float sk) eqn:Ef|]));
      unfold outcome, trace; cbn [fst snd];
      intros E; inversion E; subst; cbn;
      repeat split; try congruence;
      try (intros [?|?]; congruence);
      try (intros ? ? ?; congruence);
      try (intros ? ?; congruence);
      intros s [= <-]; assumption.
  - intros s Hs Hn. rewrite Initialize_closed_form.
    unfold requested_period. now rewrite Hs, Hn.
  - intros s Hs Hn. rewrite Initialize_closed_form.
    unfold requested_stddev. rewrite Hs, Hn.
    now destruct (requested_period G).
  - intros n k Hn Hk. rewrite Initialize_closed_form, Hn, Hk.
    eexists; split; [reflexivity|]. split; reflexivity.
  - repeat split; vm_compute; reflexivity.
Qed.

(** The script against C3 as stated (construction with a period or a
    multiplier that is not positive fails at once): with bb_period = "0" and
    bb_stddev = "-2" [Initialize] raises nothing, and constructs the
    indicator and sets the warm-up with the period 0 and the multiplier
    -2.0. *)
Lemma Initialize_accepts_nonpositive :
  outcome (Initialize nonpositive_parameters) =
    inr {| currencyPair := "EURUSD"; bb_period := 0;
           bb_stddev := PyFloat.of_Z (-2);
           symbol := mkSymbol "EURUSD" Oanda |} /\
  (0 <= 0)%Z /\
  PyFloat.leb (PyFloat.of_Z (-2)) (PyFloat.of_Z 0) = true /\
  In (BB (mkSymbol "EURUSD" Oanda) 0 (PyFloat.of_Z (-2)) Simple Minute)
     (trace (Initialize nonpositive_parameters)) /\
  In (SetWarmUp 0) (trace (Initialize nonpositive_parameters)) /\
  (forall e : PyError, outcome (Initialize nonpositive_parameters) <> inl e).
Proof.
  assert (E : Initialize nonpositive_parameters =
              (preamble ++ setup "EURUSD" 0 (PyFloat.of_Z (-2)),
               inr {| currencyPair := "EURUSD"; bb_period := 0;
                      bb_stddev := PyFloat.of_Z (-2);
                      symbol := mkSymbol "EURUSD" Oanda |}))
    by (vm_compute; reflexivity).
  rewrite E. unfold outcome, trace. cbn [fst snd].
  split; [reflexivity|]. split; [lia|]. split; [reflexivity|].
  split; [cbn; tauto|]. split; [cbn; tauto|]. discriminate.
Qed.

(** C3 (as amended). The script validates neither parameter when it
    constructs the indicator.  Whenever the period and the multiplier are
    absent or convert, to [n] and [k], [Initialize] raises nothing and calls
    [BB] and [SetWarmUp] with exactly [n] and [k]: so it does when [n <= 0]
    or [k <= 0], and so it does when both are positive.  [Initialize] fails
    only with [ValueError], only when a bb_period or bb_stddev text that is
    present does not convert, and then at once: after the first three calls
    and before the security is added and the indicator constructed. *)
Theorem Initialize_validates_nothing :
  forall G : string -> option string,
    (forall (n : Z) (k : PyFloat.float),
        requested_period G = Some n -> requested_stddev G = Some k ->
        Initialize G =
        (preamble ++ setup (requested_pair G) n k,
         inr {| currencyPair := requested_pair G; bb_period := n;
                bb_stddev := k;
                symbol := mkSymbol (requested_pair G) Oanda |})) /\
    (forall (n : Z) (k : PyFloat.float),
        requested_period G = Some n -> requested_stddev G = Some k ->
        (n <= 0)%Z \/ PyFloat.leb k (PyFloat.of_Z 0) = true ->
        (exists a : Attributes,
            outcome (Initialize G) = inr a /\
            bb_period a = n /\ bb_stddev a = k) /\
        In (BB (mkSymbol (requested_pair G) Oanda) n k Simple Minute)
           (trace (Initialize G)) /\
        In (SetWarmUp n) (trace (Initialize G))) /\
    (forall (n : Z) (k : PyFloat.float),
        requested_period G = Some n -> requested_stddev G = Some k ->
        (0 < n)%Z /\ PyFloat.gtb k (PyFloat.of_Z 0) = true ->
        (exists a : Attributes,
            outcome (Initialize G) = inr a /\
            bb_period a = n /\ bb_stddev a = k) /\
        In (BB (mkSymbol (requested_pair G) Oanda) n k Simple Minute)
           (trace (Initialize G)) /\
        In (SetWarmUp n) (trace (Initialize G))) /\
    (forall e : PyError,
        outcome (Initialize G) = inl e ->
        e = ValueError /\
        trace (Initialize G) = preamble /\
        ((exists s, G "bb_period"%string = Some s /\
                    PyBuiltin.py_int s = None) \/
         (exists s, G "bb_stddev"%string = Some s /\
                    PyBuiltin.py_float s = None))).
Proof.
  intros G.
  assert (Success : forall (n : Z) (k : PyFloat.float),
             requested_period G = Some n -> requested_stddev G = Some k ->
             (exists a : Attributes,
                 outcome (Initialize G) = inr a /\
                 bb_period a = n /\ bb_stddev a = k) /\
             In (BB (mkSymbol (requested_pair G) Oanda) n k Simple Minute)
                (trace (Initialize G)) /\
             In (SetWarmUp n) (trace (Initialize G))).
  { intros n k Hn Hk. rewrite Initialize_closed_form, Hn, Hk.
    unfold outcome, trace. cbn [fst snd]. split.
    - eexists. split; [reflexivity|]. split; reflexivity.
    - cbn. tauto. }
  split; [|split; [|split]].
  - intros n k Hn Hk. now rewrite Initialize_closed_form, Hn, Hk.
  - intros n k Hn Hk _. now apply Success.
  - intros n k Hn Hk _. now apply Success.
  - intros e. rewrite Initialize_closed_form.
    unfold requested_period, requested_stddev.
    destruct (G "bb_period"%string) as [sp|];
      [destruct (PyBuiltin.py_int sp) eqn:Ei|];
      (destruct (G "bb_stddev"%string) as [sk|];
       [destruct (PyBuiltin.py_float sk) eqn:Ef|]);
      unfold outcome, trace; cbn [fst snd]; try discriminate;
      intros _; destruct e; (split; [reflexivity|]); (split; [reflexivity|]);
      solve [ left; eexists; split; [reflexivity|assumption]
            | right; eexists; split; [reflexivity|assumption] ].
Qed.

(** * Properties of the rolling band indicator *)

Section LastN.
Variable A : Type.
Implicit Types (l : list A) (n : nat).

Lemma last_n_length l n : List.length (last_n n l) = Nat.min n (List.length l).
Proof. unfold last_n. rewrite length_skipn. lia. Qed.

Lemma last_n_all l n : (List.length l <= n)%nat -> last_n n l = l.
Proof.
  intros H. unfold last_n.
  replace (List.length l - n)%nat with 0%nat by lia. reflexivity.
Qed.

Lemma last_n_app l1 l2 n :
  (n <= List.length l2)%nat -> last_n n (l1 ++ l2) = last_n n l2.
Proof.
  intros H. unfold last_n. rewrite length_app, skipn_app.
  replace (List.length l1 + List.length l2 - n - List.length l1)%nat
    with (List.length l2 - n)%nat by lia.
  rewrite skipn_all2 by lia. reflexivity.
Qed.

(** Dropping all but the last [n] before appending does not change the last
    [n] of the result, as long as something is appended or [n] is kept. *)
Lemma last_n_app_last_n l1 l2 n :
  last_n n (last_n n l1 ++ l2) = last_n n (l1 ++ l2).
Proof.
  unfold last_n at 2.
  rewrite <- (firstn_skipn (List.length l1 - n) l1) at 3.
  rewrite <- app_assoc.
  set (keep := skipn (List.length l1 - n) l1).
  set (drop := firstn (List.length l1 - n) l1).
  assert (Hk : List.length keep = Nat.min n (List.length l1))
    by (unfold keep; rewrite length_skipn; lia).
  assert (Hd : List.length drop = (List.length l1 - n)%nat)
    by (unfold drop; rewrite length_firstn; lia).
  destruct (Nat.le_gt_cases (List.length l1) n) as [Hle|Hgt].
  - assert (drop = []) as ->; [|reflexivity].
    apply length_zero_iff_nil. lia.
  - rewrite (last_n_app drop (keep ++ l2)) by (rewrite length_app; lia).
    reflexivity.
Qed.

End LastN.

Import Indicator.

(** ** The window *)

Lemma observe_period (x : R) (ind : RollingBandIndicator) :
  period (observe x ind) = period ind.
Proof. reflexivity. Qed.

Lemma observe_multiplier (x : R) (ind : RollingBandIndicator) :
  multiplier (observe x ind) = multiplier ind.
Proof. reflexivity. Qed.

Lemma observe_all_period (xs : list R) (ind : RollingBandIndicator) :
  period (observe_all xs ind) = period ind.
Proof.
  revert ind. induction xs as [|x xs IH]; intros ind; [reflexivity|].
  cbn. now rewrite IH.
Qed.

Lemma observe_all_multiplier (xs : list R) (ind : RollingBandIndicator) :
  multiplier (observe_all xs ind) = multiplier ind.
Proof.
  revert ind. induction xs as [|x xs IH]; intros ind; [reflexivity|].
  cbn. now rewrite IH.
Qed.

Lemma observe_all_snoc (xs : list R) (x : R) (ind : RollingBandIndicator) :
  observe_all (xs ++ [x]) ind = observe x (observe_all xs ind).
Proof. unfold observe_all. now rewrite fold_left_app. Qed.

(** One observation: the window becomes the last [period] elements of the
    old window followed by the new price. *)
Lemma observe_window (x : R) (ind : RollingBandIndicator) :
  (1 <= period ind)%nat ->
  (List.length (window ind) <= period ind)%nat ->
  window (observe x ind) = last_n (period ind) (window ind ++ [x]).
Proof.
  intros Hp Hw. cbn.
  destruct (Nat.leb_spec (period ind) (List.length (window ind))) as [H|H].
  - destruct (window ind) as [|y w] eqn:E; [cbn in H; lia|].
    unfold last_n. rewrite length_app. cbn [List.length] in *.
    replace (S (List.length w) + 1 - period ind)%nat with 1%nat by lia.
    reflexivity.
  - rewrite last_n_all; [reflexivity|]. rewrite length_app. cbn. lia.
Qed.

(** Any number of observations: the window is the last [period] elements of
    the old window followed by the prices fed. *)
Lemma observe_all_window (xs : list R) (ind : RollingBandIndicator) :
  (1 <= period ind)%nat ->
  (List.length (window ind) <= period ind)%nat ->
  window (observe_all xs ind) = last_n (period ind) (window ind ++ xs).
Proof.
  intros Hp Hw. induction xs as [|x xs IH] using rev_ind.
  - cbn. rewrite app_nil_r. symmetry. now apply last_n_all.
  - rewrite observe_all_snoc, observe_window.
    + rewrite observe_all_period, IH, last_n_app_last_n, app_assoc.
      reflexivity.
    + now rewrite observe_all_period.
    + rewrite observe_all_period, IH, last_n_length. lia.
Qed.

Lemma observe_all_window_length (xs : list R) (ind : RollingBandIndicator) :
  (1 <= period ind)%nat ->
  (List.length (window ind) <= period ind)%nat ->
  List.length (window (observe_all xs ind)) =
  Nat.min (period ind) (List.length (window ind) + List.length xs).
Proof.
  intros Hp Hw. rewrite observe_all_window, last_n_length, length_app by assumption.
  reflexivity.
Qed.

(** ** Readiness *)

Lemma observe_all_ready (xs : list R) (ind : RollingBandIndicator) :
  (1 <= period ind)%nat -> window ind = [] -> ready ind = false ->
  ready (observe_all xs ind) = (period ind <=? List.length xs)%nat.
Proof.
  intros Hp Hw Hr. induction xs as [|x xs IH] using rev_ind.
  - cbn. rewrite Hr. symmetry. apply Nat.leb_gt. lia.
  - rewrite observe_all_snoc.
    assert (L := observe_all_window_length (xs ++ [x]) ind Hp).
    rewrite Hw in L. specialize (L (Nat.le_0_l _)).
    rewrite observe_all_snoc in L. cbn [List.length Nat.add] in L.
    unfold observe at 1. cbn [ready].
    fold (window (observe x (observe_all xs ind))).
    change (List.length (if (period (observe_all xs ind) <=?
                               List.length (window (observe_all xs ind)))%nat
                         then tl (window (observe_all xs ind)) ++ [x]
                         else window (observe_all xs ind) ++ [x]))
      with (List.length (window (observe x (observe_all xs ind)))).
    rewrite L, IH, observe_all_period, length_app. cbn [List.length].
    destruct (Nat.leb_spec (period ind) (List.length xs));
      destruct (Nat.eqb_spec (Nat.min (period ind) (List.length xs + 1)) (period ind));
      destruct (Nat.leb_spec (period ind) (List.length xs + 1));
      cbn; try reflexivity; lia.
Qed.

(** ** The cached mean and variance *)

Section Cached.
Local Open Scope R_scope.

Lemma observe_all_cached (xs : list R) (ind : RollingBandIndicator) :
  xs <> [] ->
  mean (observe_all xs ind) =
    window_mean (period ind) (window (observe_all xs ind)) /\
  variance (observe_all xs ind) =
    window_variance (period ind) (window (observe_all xs ind)).
Proof.
  intros Hne. destruct (exists_last Hne) as [ys [y ->]].
  rewrite observe_all_snoc.
  split; cbn; now rewrite observe_all_period.
Qed.

Lemma window_mean_reference (n : nat) (w : list R) :
  List.length w = n -> window_mean n w = reference_mean w.
Proof. intros <-. reflexivity. Qed.

Lemma window_variance_reference (n : nat) (w : list R) :
  List.length w = n -> window_variance n w = population_variance w.
Proof. intros <-. reflexivity. Qed.

Lemma total_squares_nonneg (m : R) (w : list R) :
  0 <= total (map (fun x => (x - m) * (x - m)) w).
Proof.
  unfold total. induction w as [|x w IH]; cbn; [lra|].
  assert (0 <= (x - m) * (x - m)) by apply Rle_0_sqr. lra.
Qed.

Lemma window_variance_nonneg (n : nat) (w : list R) :
  (1 <= n)%nat -> 0 <= window_variance n w.
Proof.
  intros Hn. unfold window_variance.
  apply Rmult_le_pos; [apply total_squares_nonneg|].
  left. apply Rinv_0_lt_compat. apply lt_0_INR. lia.
Qed.

Lemma total_repeat (v : R) (n : nat) : total (repeat v n) = INR n * v.
Proof.
  induction n as [|n IH]; [cbn; lra|].
  cbn [repeat total fold_right]. fold (total (repeat v n)).
  rewrite IH, S_INR. lra.
Qed.

Lemma total_zero_deviations (v : R) (n : nat) :
  total (map (fun x => (x - v) * (x - v)) (repeat v n)) = 0.
Proof.
  induction n as [|n IH]; [reflexivity|].
  cbn [repeat map total fold_right].
  fold (total (map (fun x => (x - v) * (x - v)) (repeat v n))).
  rewrite IH. lra.
Qed.

Lemma window_mean_repeat (v : R) (n : nat) :
  (1 <= n)%nat -> window_mean n (repeat v n) = v.
Proof.
  intros Hn. unfold window_mean. rewrite total_repeat.
  assert (0 < INR n) by (apply lt_0_INR; lia). field. lra.
Qed.

Lemma window_variance_repeat (v : R) (n : nat) :
  (1 <= n)%nat -> window_variance n (repeat v n) = 0.
Proof.
  intros Hn. unfold window_variance.
  rewrite window_mean_repeat by assumption.
  rewrite total_zero_deviations. unfold Rdiv. lra.
Qed.

End Cached.

(** ** Construction *)

Section Construction.
Local Open Scope R_scope.

Lemma construct_valid (p : Z) (k : R) :
  (0 < p)%Z -> 0 < k ->
  construct p k =
  inr {| period := Z.to_nat p; multiplier := k; window := [];
         ready := false; mean := 0; variance := 0 |}.
Proof.
  intros Hp Hk. unfold construct.
  destruct (Z.leb_spec p 0); [lia|].
  destruct (Rle_dec k 0); [lra|reflexivity].
Qed.

Lemma construct_invalid (p : Z) (k : R) :
  (p <= 0)%Z \/ k <= 0 -> construct p k = inl InvalidParameter.
Proof.
  intros H. unfold construct.
  destruct (Z.leb_spec p 0); [reflexivity|].
  destruct (Rle_dec k 0); [reflexivity|].
  destruct H; [lia|lra].
Qed.

Lemma construct_inv (p : Z) (k : R) (ind : RollingBandIndicator) :
  construct p k = inr ind ->
  (0 < p)%Z /\ 0 < k /\
  ind = {| period := Z.to_nat p; multiplier := k; window := [];
           ready := false; mean := 0; variance := 0 |}.
Proof.
  unfold construct.
  destruct (Z.leb_spec p 0); [discriminate|].
  destruct (Rle_dec k 0); [discriminate|].
  intros [= <-]. repeat split; [lia|lra].
Qed.

End Construction.

(** ** Reachable states *)

Section Reachable.
Local Open Scope R_scope.

Variables (p : Z) (k : R) (ind0 : RollingBandIndicator).
Hypothesis Hconstruct : construct p k = inr ind0.

Lemma reachable_period (xs : list R) :
  period (observe_all xs ind0) = Z.to_nat p /\ (1 <= Z.to_nat p)%nat.
Proof.
  destruct (construct_inv _ _ _ Hconstruct) as (Hp & Hk & ->).
  rewrite observe_all_period. cbn. split; [reflexivity|lia].
Qed.

Lemma reachable_multiplier (xs : list R) :
  multiplier (observe_all xs ind0) = k /\ 0 < k.
Proof.
  destruct (construct_inv _ _ _ Hconstruct) as (Hp & Hk & ->).
  rewrite observe_all_multiplier. cbn. split; [reflexivity|exact Hk].
Qed.

Lemma reachable_window (xs : list R) :
  window (observe_all xs ind0) = last_n (Z.to_nat p) xs.
Proof.
  destruct (construct_inv _ _ _ Hconstruct) as (Hp & Hk & ->).
  rewrite observe_all_window; cbn; [reflexivity|lia|lia].
Qed.

Lemma reachable_ready (xs : list R) :
  ready (observe_all xs ind0) = (Z.to_nat p <=? List.length xs)%nat.
Proof.
  destruct (construct_inv _ _ _ Hconstruct) as (Hp & Hk & ->).
  rewrite observe_all_ready; cbn; [reflexivity|lia|reflexivity|reflexivity].
Qed.

(** Once ready the window is full and the cached values are the reference
    mean and population variance of the window. *)
Lemma reachable_ready_cached (xs : list R) :
  ready (observe_all xs ind0) = true ->
  List.length (window (observe_all xs ind0)) = Z.to_nat p /\
  mean (observe_all xs ind0) = reference_mean (window (observe_all xs ind0)) /\
  variance (observe_all xs ind0) =
    population_variance (window (observe_all xs ind0)).
Proof.
  rewrite reachable_ready. intros Hr. apply Nat.leb_le in Hr.
  destruct (reachable_period xs) as [Hper Hpos].
  assert (Hlen : List.length (window (observe_all xs ind0)) = Z.to_nat p).
  { rewrite reachable_window, last_n_length. lia. }
  assert (Hne : xs <> []) by (intros ->; cbn in Hr; lia).
  destruct (observe_all_cached xs ind0 Hne) as [Hm Hv].
  rewrite observe_all_period in Hper.
  rewrite Hper in Hm, Hv.
  split; [exact Hlen|]. split.
  - rewrite Hm. now apply window_mean_reference.
  - rewrite Hv. now apply window_variance_reference.
Qed.

Lemma reachable_variance_nonneg (xs : list R) :
  ready (observe_all xs ind0) = true ->
  0 <= variance (observe_all xs ind0).
Proof.
  intros Hr. destruct (reachable_ready_cached xs Hr) as (Hlen & _ & Hv).
  rewrite Hv, <- (window_variance_reference _ _ Hlen).
  apply window_variance_nonneg. apply (reachable_period xs).
Qed.

End Reachable.

Arguments reachable_period {p k ind0} Hconstruct xs.
Arguments reachable_multiplier {p k ind0} Hconstruct xs.
Arguments reachable_window {p k ind0} Hconstruct xs.
Arguments reachable_ready {p k ind0} Hconstruct xs.
Arguments reachable_ready_cached {p k ind0} Hconstruct xs _.
Arguments reachable_variance_nonneg {p k ind0} Hconstruct xs _.

(** ** Accessors *)

Section Accessors.
Local Open Scope R_scope.

Lemma accessors_not_ready (ind : RollingBandIndicator) :
  is_ready ind = false ->
  middle ind = inl NotReady /\ upper ind = inl NotReady /\
  lower ind = inl NotReady.
Proof. unfold middle, upper, lower. now intros ->. Qed.

Lemma accessors_ready (ind : RollingBandIndicator) :
  is_ready ind = true ->
  middle ind = inr (mean ind) /\
  upper ind = inr (mean ind + multiplier ind * sqrt (variance ind)) /\
  lower ind = inr (mean ind - multiplier ind * sqrt (variance ind)).
Proof. unfold middle, upper, lower. now intros ->. Qed.

End Accessors.

(** * Specification of the indicator *)

Section Readiness.
Local Open Scope R_scope.

(** C2. For every period of at least 1 (and a valid multiplier), after
    fewer than [period] observations [is_ready] is false and [middle],
    [upper] and [lower] all fail with [NotReady], no value being returned;
    from [period] observations on [is_ready] is true and the three accessors
    return a value. *)
Theorem not_ready_until_period :
  forall (p : Z) (k : R) (xs : list R),
    (1 <= p)%Z -> 0 < k ->
    exists ind0 : RollingBandIndicator,
      construct p k = inr ind0 /\
      ((Z.of_nat (List.length xs) < p)%Z ->
       is_ready (observe_all xs ind0) = false /\
       middle (observe_all xs ind0) = inl NotReady /\
       upper (observe_all xs ind0) = inl NotReady /\
       lower (observe_all xs ind0) = inl NotReady) /\
      ((p <= Z.of_nat (List.length xs))%Z ->
       is_ready (observe_all xs ind0) = true /\
       (exists m, middle (observe_all xs ind0) = inr m) /\
       (exists u, upper (observe_all xs ind0) = inr u) /\
       (exists l, lower (observe_all xs ind0) = inr l)).
Proof.
  intros p k xs Hp Hk.
  assert (Hc : construct p k =
               inr {| period := Z.to_nat p; multiplier := k; window := [];
                      ready := false; mean := 0; variance := 0 |})
    by (apply construct_valid; [lia|exact Hk]).
  eexists. split; [exact Hc|].
  assert (Hr := reachable_ready Hc xs).
  split; intros Hlen.
  - assert (R0 : is_ready (observe_all xs
                    {| period := Z.to_nat p; multiplier := k; window := [];
                       ready := false; mean := 0; variance := 0 |}) = false).
    { unfold is_ready. rewrite Hr. apply Nat.leb_gt. lia. }
    split; [exact R0|]. now apply accessors_not_ready.
  - assert (R1 : is_ready (observe_all xs
                    {| period := Z.to_nat p; multiplier := k; window := [];
                       ready := false; mean := 0; variance := 0 |}) = true).
    { unfold is_ready. rewrite Hr. apply Nat.leb_le. lia. }
    split; [exact R1|].
    destruct (accessors_ready _ R1) as (-> & -> & ->).
    repeat split; eexists; reflexivity.
Qed.

Lemma not_ready_until_period_witness :
  (1 <= 3)%Z /\ 0 < 2 /\
  exists ind0 : RollingBandIndicator,
    construct 3 2 = inr ind0 /\
    ((Z.of_nat (List.length short_run) < 3)%Z ->
     is_ready (observe_all short_run ind0) = false /\
     middle (observe_all short_run ind0) = inl NotReady /\
     upper (observe_all short_run ind0) = inl NotReady /\
     lower (observe_all short_run ind0) = inl NotReady) /\
    ((3 <= Z.of_nat (List.length short_run))%Z ->
     is_ready (observe_all short_run ind0) = true /\
     (exists m, middle (observe_all short_run ind0) = inr m) /\
     (exists u, upper (observe_all short_run ind0) = inr u) /\
     (exists l, lower (observe_all short_run ind0) = inr l)).
Proof.
  split; [lia|]. split; [lra|].
  apply (not_ready_until_period 3 2 short_run); [lia|lra].
Defined.

End Readiness.

Section Bands.
Local Open Scope R_scope.

(** C4. For every sequence of observations fed to an indicator constructed
    with valid parameters, the window never holds more than [period]
    elements, and whenever the indicator is ready the three accessors return
    values with [lower <= middle <= upper], each equality holding exactly
    when the population variance of the window is zero. *)
Theorem band_order_invariant :
  forall (p : Z) (k : R) (xs : list R),
    (0 < p)%Z -> 0 < k ->
    exists ind0 : RollingBandIndicator,
      construct p k = inr ind0 /\
      (List.length (window (observe_all xs ind0)) <=
       period (observe_all xs ind0))%nat /\
      (is_ready (observe_all xs ind0) = true ->
       exists m u l : R,
         middle (observe_all xs ind0) = inr m /\
         upper (observe_all xs ind0) = inr u /\
         lower (observe_all xs ind0) = inr l /\
         l <= m /\ m <= u /\
         (u = m <-> population_variance (window (observe_all xs ind0)) = 0) /\
         (m = l <-> population_variance (window (observe_all xs ind0)) = 0)).
Proof.
  intros p k xs Hp Hk.
  assert (Hc : construct p k =
               inr {| period := Z.to_nat p; multiplier := k; window := [];
                      ready := false; mean := 0; variance := 0 |})
    by (apply construct_valid; assumption).
  eexists. split; [exact Hc|].
  set (ind := observe_all xs _).
  destruct (reachable_period Hc xs) as [Hper Hpos]. fold ind in Hper.
  split.
  - rewrite Hper. unfold ind. rewrite (reachable_window Hc xs), last_n_length. lia.
  - intros Hr.
    destruct (accessors_ready _ Hr) as (Hm & Hu & Hl).
    destruct (reachable_ready_cached Hc xs Hr) as (_ & _ & Hv).
    assert (Hnn := reachable_variance_nonneg Hc xs Hr).
    destruct (reachable_multiplier Hc xs) as [Hmul _].
    fold ind in Hv, Hnn, Hmul. rewrite <- Hv.
    rewrite Hmul in Hu, Hl.
    assert (Hs := sqrt_pos (variance ind)).
    assert (Hks : 0 <= k * sqrt (variance ind))
      by (apply Rmult_le_pos; lra).
    assert (Hz : k * sqrt (variance ind) = 0 <-> variance ind = 0).
    { split; intros E.
      - apply sqrt_eq_0; [exact Hnn|].
        destruct (Rmult_integral _ _ E); [lra|assumption].
      - rewrite E, sqrt_0. lra. }
    exists (mean ind), (mean ind + k * sqrt (variance ind)),
      (mean ind - k * sqrt (variance ind)).
    split; [exact Hm|]. split; [exact Hu|]. split; [exact Hl|].
    split; [lra|]. split; [lra|].
    split; (split; intros E; [apply Hz; lra | apply Hz in E; lra]).
Qed.

Lemma band_order_invariant_witness :
  (0 < 3)%Z /\ 0 < 2 /\
  exists ind0 : RollingBandIndicator,
    construct 3 2 = inr ind0 /\
    (List.length (window (observe_all scenario_run ind0)) <=
     period (observe_all scenario_run ind0))%nat /\
    (is_ready (observe_all scenario_run ind0) = true ->
     exists m u l : R,
       middle (observe_all scenario_run ind0) = inr m /\
       upper (observe_all scenario_run ind0) = inr u /\
       lower (observe_all scenario_run ind0) = inr l /\
       l <= m /\ m <= u /\
       (u = m <->
        population_variance (window (observe_all scenario_run ind0)) = 0) /\
       (m = l <->
        population_variance (window (observe_all scenario_run ind0)) = 0)).
Proof.
  split; [lia|]. split; [lra|].
  apply (band_order_invariant 3 2 scenario_run); [lia|lra].
Defined.

(** C5. For every period of at least 1 and every [extra >= 0], after
    [period + extra] observations the window is exactly the last [period] of
    them, in the order fed; the indicator is ready and its mean and variance,
    hence the three bands, are those of that window; and one more
    observation evicts the oldest element. *)
Theorem sliding_window :
  forall (p : Z) (k : R) (xs : list R) (extra : nat),
    (1 <= p)%Z -> 0 < k ->
    List.length xs = (Z.to_nat p + extra)%nat ->
    exists ind0 : RollingBandIndicator,
      construct p k = inr ind0 /\
      window (observe_all xs ind0) = skipn extra xs /\
      List.length (window (observe_all xs ind0)) = Z.to_nat p /\
      is_ready (observe_all xs ind0) = true /\
      mean (observe_all xs ind0) = reference_mean (skipn extra xs) /\
      variance (observe_all xs ind0) = population_variance (skipn extra xs) /\
      middle (observe_all xs ind0) = inr (reference_mean (skipn extra xs)) /\
      upper (observe_all xs ind0) =
        inr (reference_mean (skipn extra xs)
             + k * sqrt (population_variance (skipn extra xs))) /\
      lower (observe_all xs ind0) =
        inr (reference_mean (skipn extra xs)
             - k * sqrt (population_variance (skipn extra xs))) /\
      forall x : R,
        window (observe x (observe_all xs ind0)) =
        tl (window (observe_all xs ind0)) ++ [x].
Proof.
  intros p k xs extra Hp Hk Hlen.
  assert (Hc : construct p k =
               inr {| period := Z.to_nat p; multiplier := k; window := [];
                      ready := false; mean := 0; variance := 0 |})
    by (apply construct_valid; [lia|assumption]).
  eexists. split; [exact Hc|].
  set (ind := observe_all xs _).
  assert (Hw : window ind = skipn extra xs).
  { unfold ind. rewrite (reachable_window Hc xs). unfold last_n.
    f_equal. lia. }
  assert (Hr : is_ready ind = true).
  { unfold is_ready, ind. rewrite (reachable_ready Hc xs).
    apply Nat.leb_le. lia. }
  destruct (reachable_ready_cached Hc xs Hr) as (Hl & Hm & Hv).
  fold ind in Hl, Hm, Hv. rewrite Hw in Hm, Hv.
  destruct (accessors_ready _ Hr) as (Hmid & Hup & Hlo).
  destruct (reachable_multiplier Hc xs) as [Hmul _]. fold ind in Hmul.
  rewrite Hmul, Hm, Hv in Hup, Hlo. rewrite Hm in Hmid.
  split; [exact Hw|]. split; [exact Hl|]. split; [exact Hr|].
  split; [exact Hm|]. split; [exact Hv|]. split; [exact Hmid|].
  split; [exact Hup|]. split; [exact Hlo|].
  intros x. cbn.
  destruct (reachable_period Hc xs) as [Hper _]. fold ind in Hper.
  rewrite Hper, Hl, Nat.leb_refl. reflexivity.
Qed.

Lemma sliding_window_witness :
  (1 <= 3)%Z /\ 0 < 2 /\
  List.length long_run = (Z.to_nat 3 + 2)%nat /\
  exists ind0 : RollingBandIndicator,
    construct 3 2 = inr ind0 /\
    window (observe_all long_run ind0) = [10; 10; 13].
Proof.
  split; [lia|]. split; [lra|]. split; [reflexivity|].
  destruct (sliding_window 3 2 long_run 2) as (ind0 & Hc & Hw & _);
    [lia|lra|reflexivity|].
  exists ind0. split; [exact Hc|exact Hw].
Defined.

End Bands.

Section Reference.
Local Open Scope R_scope.

Lemma sqrt_2_bounds : 141 / 100 < sqrt 2 < 142 / 100.
Proof.
  split.
  - rewrite <- (sqrt_square (141 / 100)) by lra.
    apply sqrt_lt_1_alt. lra.
  - rewrite <- (sqrt_square (142 / 100)) by lra.
    apply sqrt_lt_1_alt. lra.
Qed.

Lemma scenario_mean : reference_mean [10; 10; 13] = 11.
Proof. unfold reference_mean, total. cbn. lra. Qed.

Lemma scenario_population_variance : population_variance [10; 10; 13] = 2.
Proof.
  unfold population_variance, squared_deviations. rewrite scenario_mean.
  unfold total. cbn. lra.
Qed.

Lemma scenario_sample_variance : sample_variance [10; 10; 13] = 3.
Proof.
  unfold sample_variance, squared_deviations. rewrite scenario_mean.
  unfold total. cbn. lra.
Qed.

(** Once ready, the three bands are the reference mean of the window and that
    mean plus and minus the multiplier times the square root of the window's
    population variance. *)
Lemma bands_when_ready (p : Z) (k : R) (ind0 : RollingBandIndicator) (xs : list R) :
  construct p k = inr ind0 ->
  is_ready (observe_all xs ind0) = true ->
  middle (observe_all xs ind0) =
    inr (reference_mean (window (observe_all xs ind0))) /\
  upper (observe_all xs ind0) =
    inr (reference_mean (window (observe_all xs ind0))
         + k * sqrt (population_variance (window (observe_all xs ind0)))) /\
  lower (observe_all xs ind0) =
    inr (reference_mean (window (observe_all xs ind0))
         - k * sqrt (population_variance (window (observe_all xs ind0)))).
Proof.
  intros Hc Hr.
  destruct (accessors_ready _ Hr) as (Hm & Hu & Hl).
  destruct (reachable_ready_cached Hc xs Hr) as (_ & Em & Ev).
  destruct (reachable_multiplier Hc xs) as [Ek _].
  rewrite Ek, Em, Ev in Hu, Hl. rewrite Em in Hm.
  split; [exact Hm|]. split; [exact Hu|exact Hl].
Qed.

(** A full window of one value: the bands collapse onto it. *)
Lemma bands_of_constant_run (p : Z) (k : R) (ind0 : RollingBandIndicator) (v : R) :
  construct p k = inr ind0 ->
  middle (observe_all (repeat v (Z.to_nat p)) ind0) = inr v /\
  upper (observe_all (repeat v (Z.to_nat p)) ind0) = inr v /\
  lower (observe_all (repeat v (Z.to_nat p)) ind0) = inr v.
Proof.
  intros Hc.
  destruct (reachable_period Hc []) as [_ Hn].
  assert (Hr : is_ready (observe_all (repeat v (Z.to_nat p)) ind0) = true).
  { unfold is_ready. rewrite (reachable_ready Hc), repeat_length.
    apply Nat.leb_refl. }
  destruct (bands_when_ready p k ind0 _ Hc Hr) as (Hm & Hu & Hl).
  assert (Hw : window (observe_all (repeat v (Z.to_nat p)) ind0) =
               repeat v (Z.to_nat p)).
  { rewrite (reachable_window Hc). apply last_n_all.
    rewrite repeat_length. lia. }
  rewrite Hw in Hm, Hu, Hl.
  assert (Em : reference_mean (repeat v (Z.to_nat p)) = v).
  { rewrite <- (window_mean_reference (Z.to_nat p)) by apply repeat_length.
    now apply window_mean_repeat. }
  assert (Ev : population_variance (repeat v (Z.to_nat p)) = 0).
  { rewrite <- (window_variance_reference (Z.to_nat p)) by apply repeat_length.
    now apply window_variance_repeat. }
  rewrite Em in Hm, Hu, Hl. rewrite Ev, sqrt_0 in Hu, Hl.
  replace (v + k * 0) with v in Hu by lra.
  replace (v - k * 0) with v in Hl by lra.
  split; [exact Hm|]. split; [exact Hu|exact Hl].
Qed.

(** C6. When ready, the bands are the reference definition over the window:
    the middle band is its mean, and the upper and lower bands are the mean
    plus and minus the multiplier times the square root of its population
    variance (divisor: the number of elements, [period]).  So after exactly
    [period] identical observations [v] the three bands equal [v]; and with
    period 3 and multiplier 2, the run 10, 10, 10 gives 10 for all three,
    and the next observation 13 gives the window 10, 10, 13 with mean 11,
    population variance 2 (the sample variance would be 3), upper band
    within 0.01 of 13.83 and lower band within 0.01 of 8.17. *)
Theorem band_reference_definition :
  (forall (p : Z) (k : R),
      (1 <= p)%Z -> 0 < k ->
      exists ind0 : RollingBandIndicator,
        construct p k = inr ind0 /\
        (forall xs : list R,
            is_ready (observe_all xs ind0) = true ->
            middle (observe_all xs ind0) =
              inr (reference_mean (window (observe_all xs ind0))) /\
            upper (observe_all xs ind0) =
              inr (reference_mean (window (observe_all xs ind0))
                   + k * sqrt (population_variance
                                 (window (observe_all xs ind0)))) /\
            lower (observe_all xs ind0) =
              inr (reference_mean (window (observe_all xs ind0))
                   - k * sqrt (population_variance
                                 (window (observe_all xs ind0))))) /\
        (forall v : R,
            middle (observe_all (repeat v (Z.to_nat p)) ind0) = inr v /\
            upper (observe_all (repeat v (Z.to_nat p)) ind0) = inr v /\
            lower (observe_all (repeat v (Z.to_nat p)) ind0) = inr v)) /\
  (exists ind3 : RollingBandIndicator,
      construct 3 2 = inr ind3 /\
      middle (observe_all [10; 10; 10] ind3) = inr 10 /\
      upper (observe_all [10; 10; 10] ind3) = inr 10 /\
      lower (observe_all [10; 10; 10] ind3) = inr 10 /\
      window (observe_all scenario_run ind3) = [10; 10; 13] /\
      mean (observe_all scenario_run ind3) = 11 /\
      variance (observe_all scenario_run ind3) = 2 /\
      sample_variance (window (observe_all scenario_run ind3)) = 3 /\
      middle (observe_all scenario_run ind3) = inr 11 /\
      exists u l : R,
        upper (observe_all scenario_run ind3) = inr u /\
        lower (observe_all scenario_run ind3) = inr l /\
        1382 / 100 < u < 1384 / 100 /\
        816 / 100 < l < 818 / 100).
Proof.
  split.
  - intros p k Hp Hk.
    assert (Hc : construct p k =
                 inr {| period := Z.to_nat p; multiplier := k; window := [];
                        ready := false; mean := 0; variance := 0 |})
      by (apply construct_valid; [lia|assumption]).
    eexists. split; [exact Hc|]. split.
    + intros xs Hr. now apply bands_when_ready with (p := p).
    + intros v. now apply bands_of_constant_run with (p := p) (k := k).
  - assert (Hc : construct 3 2 =
                 inr {| period := Z.to_nat 3; multiplier := 2; window := [];
                        ready := false; mean := 0; variance := 0 |})
      by (apply construct_valid; [lia|lra]).
    eexists. split; [exact Hc|].
    destruct (bands_of_constant_run 3 2 _ 10 Hc) as (S1 & S2 & S3).
    change (repeat 10 (Z.to_nat 3)) with [10; 10; 10] in S1, S2, S3.
    split; [exact S1|]. split; [exact S2|]. split; [exact S3|].
    set (ind3 := {| period := Z.to_nat 3; multiplier := 2; window := [];
                    ready := false; mean := 0; variance := 0 |}) in *.
    assert (Hw : window (observe_all scenario_run ind3) = [10; 10; 13]).
    { rewrite (reachable_window Hc). reflexivity. }
    assert (Hr : is_ready (observe_all scenario_run ind3) = true).
    { unfold is_ready. rewrite (reachable_ready Hc). reflexivity. }
    destruct (reachable_ready_cached Hc scenario_run Hr) as (_ & Em & Ev).
    destruct (bands_when_ready 3 2 ind3 scenario_run Hc Hr) as (Hm & Hu & Hl).
    rewrite Hw in *.
    rewrite scenario_mean in *. rewrite scenario_population_variance in *.
    split; [reflexivity|]. split; [exact Em|]. split; [exact Ev|].
    split; [exact scenario_sample_variance|]. split; [exact Hm|].
    exists (11 + 2 * sqrt 2), (11 - 2 * sqrt 2).
    split; [exact Hu|]. split; [exact Hl|].
    destruct sqrt_2_bounds as [B1 B2]. split; lra.
Qed.

Lemma band_reference_definition_witness :
  (1 <= 3)%Z /\ 0 < 2 /\
  exists ind0 : RollingBandIndicator,
    construct 3 2 = inr ind0 /\
    forall v : R,
      middle (observe_all (repeat v (Z.to_nat 3)) ind0) = inr v /\
      upper (observe_all (repeat v (Z.to_nat 3)) ind0) = inr v /\
      lower (observe_all (repeat v (Z.to_nat 3)) ind0) = inr v.
Proof.
  split; [lia|]. split; [lra|].
  destruct (proj1 band_reference_definition 3%Z 2) as (ind0 & Hc & _ & Hv);
    [lia|lra|].
  exists ind0. split; [exact Hc|exact Hv].
Defined.

End Reference.

(** * Further properties of the trade logic *)

(** ** The order of floats *)

Section FloatOrder.
Local Open Scope pyfloat_scope.

Lemma SFcompare_swap (x y : PyFloat.float) :
  SFcompare y x = option_map CompOpp (SFcompare x y).
Proof.
  destruct x as [[]|[]| |[] m1 e1], y as [[]|[]| |[] m2 e2]; cbn;
    try reflexivity.
  all: rewrite (Z.compare_antisym e1 e2);
    destruct (e1 ?= e2)%Z; cbn; try reflexivity.
  all: change (Pos.compare_cont Eq m2 m1) with (Pos.compare m2 m1);
    change (Pos.compare_cont Eq m1 m2) with (Pos.compare m1 m2);
    rewrite (Pos.compare_antisym m1 m2); now destruct (m1 ?= m2)%positive.
Qed.

Lemma gtb_ltb (x y : PyFloat.float) : (x >? y) = (y <? x).
Proof.
  unfold PyFloat.gtb, PyFloat.ltb. rewrite (SFcompare_swap x y).
  now destruct (SFcompare x y) as [[ | | ]|].
Qed.

Lemma geb_leb (x y : PyFloat.float) : (x >=? y) = (y <=? x).
Proof.
  unfold PyFloat.geb, PyFloat.leb. rewrite (SFcompare_swap x y).
  now destruct (SFcompare x y) as [[ | | ]|].
Qed.

Lemma ltb_leb_trans (x y z : PyFloat.float) :
  (x <? y) = true -> (y <=? z) = true -> (x <? z) = true.
Proof.
  unfold PyFloat.ltb, PyFloat.leb.
  destruct x as [[]|[]| |[] m1 e1], y as [[]|[]| |[] m2 e2],
    z as [[]|[]| |[] m3 e3]; cbn; try congruence.
  all: change (Pos.compare_cont Eq) with Pos.compare.
  all: destruct (Z.compare_spec e1 e2); try congruence;
    destruct (Z.compare_spec e2 e3); try congruence;
    destruct (Z.compare_spec e1 e3); try lia; try congruence; subst.
  all: destruct (Pos.compare_spec m1 m2); cbn; try congruence;
    destruct (Pos.compare_spec m2 m3); cbn; try congruence;
    destruct (Pos.compare_spec m1 m3); cbn; try congruence; try lia.
Qed.

Lemma leb_ltb_trans (x y z : PyFloat.float) :
  (x <=? y) = true -> (y <? z) = true -> (x <? z) = true.
Proof.
  unfold PyFloat.ltb, PyFloat.leb.
  destruct x as [[]|[]| |[] m1 e1], y as [[]|[]| |[] m2 e2],
    z as [[]|[]| |[] m3 e3]; cbn; try congruence.
  all: change (Pos.compare_cont Eq) with Pos.compare.
  all: destruct (Z.compare_spec e1 e2); try congruence;
    destruct (Z.compare_spec e2 e3); try congruence;
    destruct (Z.compare_spec e1 e3); try lia; try congruence; subst.
  all: destruct (Pos.compare_spec m1 m2); cbn; try congruence;
    destruct (Pos.compare_spec m2 m3); cbn; try congruence;
    destruct (Pos.compare_spec m1 m3); cbn; try congruence; try lia.
Qed.

Lemma ltb_nan_l (y : PyFloat.float) : (S754_nan <? y) = false.
Proof. reflexivity. Qed.

Lemma ltb_nan_r (x : PyFloat.float) : (x <? S754_nan) = false.
Proof. unfold PyFloat.ltb. now destruct x. Qed.

Lemma gtb_nan_l (y : PyFloat.float) : (S754_nan >? y) = false.
Proof. reflexivity. Qed.

Lemma gtb_nan_r (x : PyFloat.float) : (x >? S754_nan) = false.
Proof. unfold PyFloat.gtb. now destruct x. Qed.

End FloatOrder.

(** ** Edge values and thresholds *)

(** X1. A tick places no order and logs nothing when the price is NaN, or
    when the band it would compare the price with (the lower band when flat,
    the middle band when invested) is NaN: every comparison with a NaN is
    false. *)
Theorem TradeLogic_nan_holds :
  forall self : Algorithm,
    tick_price self = S754_nan \/
    (tick_invested self = false /\ LowerBand (bb self) = S754_nan) \/
    (tick_invested self = true /\ MiddleBand (bb self) = S754_nan) ->
    TradeLogic self = [].
Proof.
  intros self H. unfold TradeLogic.
  fold (tick_price self). fold (tick_invested self).
  destruct (IsWarmingUp self); [reflexivity|].
  destruct H as [Hp | [[Hi Hb] | [Hi Hb]]].
  - rewrite Hp, ltb_nan_l, gtb_nan_l, !andb_false_r. reflexivity.
  - rewrite Hi, Hb, ltb_nan_r. reflexivity.
  - rewrite Hi, Hb, gtb_nan_r. reflexivity.
Qed.

Lemma TradeLogic_nan_holds_witness :
  (tick_price (tick_at S754_nan false) = S754_nan \/
   (tick_invested (tick_at S754_nan false) = false /\
    LowerBand (bb (tick_at S754_nan false)) = S754_nan) \/
   (tick_invested (tick_at S754_nan false) = true /\
    MiddleBand (bb (tick_at S754_nan false)) = S754_nan)) /\
  TradeLogic (tick_at S754_nan false) = [].
Proof.
  split; [left; reflexivity|].
  apply (TradeLogic_nan_holds (tick_at S754_nan false)). left. reflexivity.
Defined.

(** X2. With the lower band at or below the middle band, the entry zone and
    the exit zone do not meet: a price that makes a flat tick enter makes an
    invested tick hold, and a price that makes an invested tick exit makes a
    flat tick hold.  So an entry is never undone at the same price and
    bands. *)
Theorem zones_disjoint :
  forall (price : PyFloat.float) (band : BollingerBands),
    PyFloat.leb (LowerBand band) (MiddleBand band) = true ->
    (evaluate price band false = ENTER -> evaluate price band true = HOLD) /\
    (evaluate price band true = EXIT -> evaluate price band false = HOLD).
Proof.
  intros price band Hb.
  rewrite evaluate_invested, evaluate_not_invested.
  destruct (PyFloat.ltb price (LowerBand band)) eqn:Hl.
  - assert (Hm := ltb_leb_trans _ _ _ Hl Hb).
    rewrite (ltb_not_gtb _ _ Hm). split; [reflexivity|discriminate].
  - split; [discriminate|reflexivity].
Qed.

Lemma zones_disjoint_witness :
  PyFloat.leb (LowerBand (bb tick_a)) (MiddleBand (bb tick_a)) = true /\
  (evaluate (PyFloat.of_Z 7) (bb tick_a) false = ENTER ->
   evaluate (PyFloat.of_Z 7) (bb tick_a) true = HOLD) /\
  (evaluate (PyFloat.of_Z 7) (bb tick_a) true = EXIT ->
   evaluate (PyFloat.of_Z 7) (bb tick_a) false = HOLD).
Proof.
  split; [reflexivity|].
  apply (zones_disjoint (PyFloat.of_Z 7) (bb tick_a)). reflexivity.
Defined.

(** The precondition of X2 is needed: with the bands the wrong way round a
    price between them both enters and exits. *)
Example inverted_band_churns :
  PyFloat.leb (LowerBand inverted_band) (MiddleBand inverted_band) = false /\
  evaluate (PyFloat.of_decimal false 115 (-1)) inverted_band false = ENTER /\
  evaluate (PyFloat.of_decimal false 115 (-1)) inverted_band true = EXIT.
Proof. repeat split; vm_compute; reflexivity. Qed.

(** X3. The two thresholds are monotone in the price: if a flat tick enters
    at a price it enters at every lower price, and if an invested tick exits
    at a price it exits at every higher price, the bands being the same. *)
Theorem thresholds_monotone :
  forall (p q : PyFloat.float) (band : BollingerBands),
    PyFloat.leb p q = true ->
    (evaluate q band false = ENTER -> evaluate p band false = ENTER) /\
    (evaluate p band true = EXIT -> evaluate q band true = EXIT).
Proof.
  intros p q band Hpq.
  rewrite !evaluate_invested, !evaluate_not_invested. split.
  - destruct (PyFloat.ltb q (LowerBand band)) eqn:Hq; [|discriminate].
    now rewrite (leb_ltb_trans _ _ _ Hpq Hq).
  - rewrite !gtb_ltb.
    destruct (PyFloat.ltb (MiddleBand band) p) eqn:Hp; [|discriminate].
    now rewrite (ltb_leb_trans _ _ _ Hp Hpq).
Qed.

Lemma thresholds_monotone_witness :
  PyFloat.leb (PyFloat.of_Z 7) (PyFloat.of_Z 8) = true /\
  (evaluate (PyFloat.of_Z 8) (bb tick_a) false = ENTER ->
   evaluate (PyFloat.of_Z 7) (bb tick_a) false = ENTER) /\
  (evaluate (PyFloat.of_Z 7) (bb tick_a) true = EXIT ->
   evaluate (PyFloat.of_Z 8) (bb tick_a) true = EXIT).
Proof.
  split; [reflexivity|].
  apply (thresholds_monotone (PyFloat.of_Z 7) (PyFloat.of_Z 8) (bb tick_a)).
  reflexivity.
Defined.

(** ** Runs of ticks *)

Lemma position_after_TradeLogic (self : Algorithm) :
  position_after (tick_invested self) (TradeLogic self) =
  match decision_of (TradeLogic self) with
  | ENTER => true
  | EXIT => false
  | HOLD => tick_invested self
  end.
Proof.
  rewrite TradeLogic_trace.
  destruct (IsWarmingUp self); [reflexivity|].
  now destruct (evaluate _ _ _).
Qed.

Lemma decision_matches_position (self : Algorithm) :
  match decision_of (TradeLogic self) with
  | ENTER => tick_invested self = false
  | EXIT => tick_invested self = true
  | HOLD => True
  end.
Proof.
  rewrite TradeLogic_decision.
  destruct (IsWarmingUp self); [exact I|].
  destruct (evaluate _ _ _) eqn:E; [| |exact I].
  - now apply evaluate_ENTER in E.
  - now apply evaluate_EXIT in E.
Qed.

(** X4. In a run of ticks where each tick reads the position the tick before
    left (the host fills every order before the next tick), entries and
    exits take turns: the run never enters twice without an exit in between
    nor exits twice without an entry, and its first order is an exit if the
    run opens with a position and an entry otherwise.  Ticks of the warm-up
    take no part. *)
Theorem entries_and_exits_alternate :
  forall states : list Algorithm,
    filled_run states ->
    alternates (opening_position states) (signals states) = true.
Proof.
  induction states as [|s rest IH]; [reflexivity|].
  intros Hrun. unfold signals. cbn [map filter opening_position].
  fold (signals rest).
  assert (Hd := decision_matches_position s).
  assert (Hp := position_after_TradeLogic s).
  assert (Hrest : filled_run rest) by (destruct rest; [exact I|apply Hrun]).
  specialize (IH Hrest).
  assert (Hnext : rest = [] \/
                  opening_position rest =
                  position_after (tick_invested s) (TradeLogic s)).
  { destruct rest as [|s' rest']; [now left|right]. apply Hrun. }
  destruct (decision_of (TradeLogic s)); cbn [is_signal alternates].
  - rewrite Hd. cbn [negb].
    destruct Hnext as [-> | Hn]; [reflexivity|]. now rewrite Hn, Hp in IH.
  - rewrite Hd. cbn [negb].
    destruct Hnext as [-> | Hn]; [reflexivity|]. now rewrite Hn, Hp in IH.
  - destruct Hnext as [-> | Hn]; [reflexivity|]. now rewrite Hn, Hp in IH.
Qed.

Lemma entries_and_exits_alternate_witness :
  filled_run sample_ticks /\
  signals sample_ticks = [ENTER; EXIT; ENTER] /\
  alternates (opening_position sample_ticks) (signals sample_ticks) = true.
Proof.
  assert (H : filled_run sample_ticks) by (repeat split; reflexivity).
  split; [exact H|]. split; [reflexivity|].
  exact (entries_and_exits_alternate sample_ticks H).
Defined.

(** * Further properties of the initialization *)

(** X5. A successful [Initialize] sets everything up on one security with a
    non-empty pair: the pair attribute is never the empty text, the symbol
    carries that pair, [AddForex] is called for that pair and no other, and
    the indicator and both schedule rules are on that symbol and no other. *)
Theorem Initialize_one_security :
  forall (G : string -> option string) (a : Attributes),
    outcome (Initialize G) = inr a ->
    currencyPair a <> ""%string /\
    ticker (symbol a) = currencyPair a /\
    (forall p r m, In (AddForex p r m) (trace (Initialize G)) <->
                   p = currencyPair a /\ r = Minute /\ m = Oanda) /\
    (forall s n k ma r, In (BB s n k ma r) (trace (Initialize G)) ->
                        s = symbol a) /\
    (forall s1 s2 f, In (ScheduleOn (EveryDay s1) (EveryMinute s2) f)
                        (trace (Initialize G)) ->
                     s1 = symbol a /\ s2 = symbol a).
Proof.
  intros G a. rewrite Initialize_closed_form.
  destruct (requested_period G) as [n|]; [|discriminate].
  destruct (requested_stddev G) as [k|]; [|discriminate].
  unfold outcome, trace. cbn [fst snd]. intros [= <-]. cbn.
  split.
  { unfold requested_pair. destruct (G "pair"%string) as [p|]; [|discriminate].
    destruct (String.eqb_spec p ""); [discriminate|assumption]. }
  split; [reflexivity|]. split; [|split].
  - intros p [] []. split.
    + intros H. repeat (destruct H as [H|H]; try discriminate).
      * injection H as <-. repeat split.
      * destruct H.
    + intros (-> & _ & _). tauto.
  - intros s n' k' ma r H.
    repeat (destruct H as [H|H]; try discriminate).
    + now injection H as <-.
    + destruct H.
  - intros s1 s2 f H.
    repeat (destruct H as [H|H]; try discriminate).
    + injection H as <- <-. split; reflexivity.
    + destruct H.
Qed.

Lemma Initialize_one_security_witness :
  exists a : Attributes,
    outcome (Initialize (parameters [("pair", "")]%string)) = inr a /\
    currencyPair a <> ""%string /\
    ticker (symbol a) = currencyPair a.
Proof.
  eexists. split; [reflexivity|].
  destruct (Initialize_one_security (parameters [("pair", "")]%string) _ eq_refl)
    as (H1 & H2 & _).
  split; [exact H1|exact H2].
Defined.

(** X6. [Initialize] reads the three parameters pair, bb_period and
    bb_stddev and nothing else of the parameter table: two tables that agree
    on these three give the same calls and the same outcome. *)
Theorem Initialize_reads_three_parameters :
  forall G1 G2 : string -> option string,
    G1 "pair"%string = G2 "pair"%string ->
    G1 "bb_period"%string = G2 "bb_period"%string ->
    G1 "bb_stddev"%string = G2 "bb_stddev"%string ->
    Initialize G1 = Initialize G2.
Proof.
  intros G1 G2 Hp Hn Hk. rewrite !Initialize_closed_form.
  unfold requested_period, requested_stddev, requested_pair.
  now rewrite Hp, Hn, Hk.
Qed.

Lemma Initialize_reads_three_parameters_witness :
  Initialize (parameters [("bb_period", "5")]%string) =
  Initialize (parameters [("resolution", "Hour"); ("bb_period", "5");
                          ("cash", "1")]%string).
Proof.
  apply (Initialize_reads_three_parameters
           (parameters [("bb_period", "5")]%string)
           (parameters [("resolution", "Hour"); ("bb_period", "5");
                        ("cash", "1")]%string)); reflexivity.
Defined.

(** ** Integer texts read by [int] *)

Section ParameterTexts.
Import PyBuiltin.

Lemma uint_val_pos (d : Decimal.uint) (a : positive) :
  uint_val d (Zpos a) = Zpos (Pos.of_uint_acc d a).
Proof.
  revert a. induction d; intros a; cbn [uint_val Pos.of_uint_acc];
    [reflexivity|..];
    match goal with |- uint_val _ ?z = _ =>
      match goal with |- _ = Zpos (Pos.of_uint_acc _ ?q) =>
        replace z with (Zpos q) by lia end end; apply IHd.
Qed.

Lemma uint_val_zero (d : Decimal.uint) :
  uint_val d 0 = Z.of_N (Pos.of_uint d).
Proof.
  induction d; cbn [uint_val Pos.of_uint]; [reflexivity|exact IHd|..];
    cbn [Z.mul Z.add]; rewrite uint_val_pos; reflexivity.
Qed.

Lemma int_digits_digits (d : Decimal.uint) (acc : Z) :
  int_digits acc true (digits_of d) = Some (uint_val d acc).
Proof.
  revert acc. induction d; intros acc; [reflexivity|..];
    unfold digits_of in *; cbn [DecimalString.NilEmpty.string_of_uint list_ascii_of_string int_digits];
    cbn [uint_val]; apply IHd.
Qed.

Lemma digits_of_are_digits (d : Decimal.uint) :
  forallb is_digit (digits_of d) = true.
Proof. induction d; [reflexivity|..]; exact IHd. Qed.

Lemma lstrip_id (l : list ascii) :
  match l with c :: _ => is_space c = false | [] => True end -> lstrip l = l.
Proof. destruct l as [|c r]; [reflexivity|]. cbn. now intros ->. Qed.

Lemma strip_no_space (l : list ascii) :
  forallb (fun c => negb (is_space c)) l = true -> strip l = l.
Proof.
  intros H. unfold strip.
  assert (H1 : lstrip l = l).
  { apply lstrip_id. destruct l as [|c r]; [exact I|].
    cbn in H. apply andb_prop in H. now destruct (is_space c). }
  rewrite H1.
  assert (H2 : lstrip (rev l) = rev l).
  { apply lstrip_id. destruct (rev l) as [|c r] eqn:E; [exact I|].
    assert (Hin : In c l) by (apply in_rev; rewrite E; now left).
    rewrite forallb_forall in H. specialize (H c Hin). now destruct (is_space c). }
  rewrite H2. apply rev_involutive.
Qed.

Lemma digit_not_space (c : ascii) : is_digit c = true -> is_space c = false.
Proof.
  unfold is_digit, is_space. intros H.
  apply andb_prop in H. destruct H as [H1 H2].
  apply Nat.leb_le in H1. apply Nat.leb_le in H2.
  destruct (Nat.leb_spec 9 (nat_of_ascii c)), (Nat.leb_spec (nat_of_ascii c) 13),
    (Nat.eqb_spec (nat_of_ascii c) 32); cbn; try reflexivity; lia.
Qed.

Lemma digit_not_sign (c : ascii) (r : list ascii) :
  is_digit c = true -> take_sign (c :: r) = (false, c :: r).
Proof.
  intros H. unfold take_sign.
  destruct (Ascii.eqb_spec c "+") as [->|]; [discriminate|].
  destruct (Ascii.eqb_spec c "-") as [->|]; [discriminate|].
  destruct c as [[] [] [] [] [] [] [] []]; try reflexivity; congruence.
Qed.

Lemma py_int_of_uint (d : Decimal.uint) :
  d <> Decimal.Nil ->
  (count_digits (digits_of d) <= max_str_digits)%nat ->
  py_int (DecimalString.NilEmpty.string_of_uint d) = Some (Z.of_uint d) /\
  py_int (String "-" (DecimalString.NilEmpty.string_of_uint d)) = Some (- Z.of_uint d)%Z.
Proof.
  intros Hd Hmax. apply Nat.leb_le in Hmax.
  assert (Hdig := digits_of_are_digits d).
  assert (Hns : forallb (fun c => negb (is_space c)) (digits_of d) = true).
  { apply forallb_forall. intros c Hc. rewrite forallb_forall in Hdig.
    now rewrite (digit_not_space c (Hdig c Hc)). }
  assert (Hval : int_digits 0 false (digits_of d) = Some (Z.of_uint d)).
  { unfold Z.of_uint. rewrite <- uint_val_zero.
    destruct d; [congruence|..];
      unfold digits_of;
      cbn [DecimalString.NilEmpty.string_of_uint list_ascii_of_string int_digits uint_val];
      apply (int_digits_digits d). }
  split; unfold py_int.
  - fold (digits_of d). rewrite strip_no_space by exact Hns.
    destruct (digits_of d) as [|c r] eqn:E.
    + cbn in Hval. discriminate.
    + cbn in Hdig. apply andb_prop in Hdig.
      rewrite (digit_not_sign c r (proj1 Hdig)), Hmax, Hval. reflexivity.
  - cbn [list_ascii_of_string]. fold (digits_of d).
    rewrite strip_no_space by (cbn; exact Hns).
    cbn [take_sign]. rewrite Hmax, Hval. reflexivity.
Qed.

Lemma nonnil_text (p : positive) :
  DecimalString.NilZero.string_of_uint (Pos.to_uint p) =
  DecimalString.NilEmpty.string_of_uint (Pos.to_uint p).
Proof.
  assert (Hp := DecimalPos.Unsigned.to_uint_nonnil p).
  unfold DecimalString.NilZero.string_of_uint.
  now destruct (Pos.to_uint p).
Qed.

(** [int(str(n))] is [n], as long as [str(n)] is within the digit limit. *)
Lemma py_int_decimal_text (n : Z) :
  (digit_count (decimal_text n) <= max_str_digits)%nat ->
  py_int (decimal_text n) = Some n.
Proof.
  unfold decimal_text, digit_count.
  rewrite <- (DecimalZ.of_to n) at 3.
  destruct n as [|p|p]; [reflexivity|..];
    cbn [Z.to_int Z.of_int DecimalString.NilZero.string_of_int];
    rewrite nonnil_text; intros Hmax;
    apply py_int_of_uint;
    try apply DecimalPos.Unsigned.to_uint_nonnil; exact Hmax.
Qed.

(** ** Integer texts read by [float] *)
Lemma drop_underscores_digits (ds : list ascii) (prev : bool) :
  forallb is_digit ds = true -> drop_underscores prev ds = Some ds.
Proof.
  revert prev. induction ds as [|c r IH]; intros prev H; [reflexivity|].
  cbn in H. apply andb_prop in H. destruct H as [Hc Hr].
  cbn [drop_underscores].
  destruct (Ascii.eqb_spec c "_") as [->|_]; [discriminate|].
  now rewrite (IH _ Hr).
Qed.

Lemma span_digits_digits (ds : list ascii) :
  forallb is_digit ds = true -> span_digits ds = (ds, []).
Proof.
  induction ds as [|c r IH]; intros H; [reflexivity|].
  cbn in H. apply andb_prop in H. destruct H as [Hc Hr].
  cbn [span_digits]. now rewrite Hc, (IH Hr).
Qed.

Lemma digits_val_digits (d : Decimal.uint) (acc : Z) :
  fold_left (fun a c => (a * 10 + digit_val c)%Z) (digits_of d) acc = uint_val d acc.
Proof.
  revert acc. induction d; intros acc; [reflexivity|..];
    unfold digits_of in *;
    cbn [DecimalString.NilEmpty.string_of_uint list_ascii_of_string fold_left uint_val];
    apply IHd.
Qed.

Lemma digit_not_word (c : ascii) (r : list ascii) (w : string) :
  is_digit c = true ->
  match w with String a _ => is_digit a = false | EmptyString => True end ->
  String.eqb (string_of_list_ascii (map to_lower (c :: r))) w = false.
Proof.
  intros Hc Hw. destruct w as [|a w']; [reflexivity|].
  cbn [map string_of_list_ascii String.eqb].
  destruct (Ascii.eqb_spec (to_lower c) a) as [<-|]; [|reflexivity].
  exfalso. revert Hc Hw.
  destruct c as [[] [] [] [] [] [] [] []]; vm_compute; congruence.
Qed.

Lemma decimal_digits (d : Decimal.uint) (neg : bool) :
  d <> Decimal.Nil ->
  decimal neg (digits_of d) = Some (PyFloat.of_decimal neg (Z.of_uint d) 0).
Proof.
  intros Hd. unfold decimal.
  rewrite (span_digits_digits _ (digits_of_are_digits d)).
  rewrite app_nil_r.
  destruct (digits_of d) as [|c r] eqn:E.
  - destruct d; try congruence; discriminate.
  - rewrite <- E. cbn [exponent List.length Z.of_nat Z.sub Z.opp Z.add].
    unfold digits_val. rewrite digits_val_digits, uint_val_zero. reflexivity.
Qed.

Lemma digits_no_sign (ds : list ascii) :
  forallb is_digit ds = true -> take_sign ds = (false, ds).
Proof.
  destruct ds as [|c r]; [reflexivity|]. intros H.
  cbn in H. apply andb_prop in H. now apply digit_not_sign.
Qed.

Lemma digits_no_word (ds : list ascii) (w : string) :
  forallb is_digit ds = true -> ds <> [] ->
  match w with String a _ => is_digit a = false | EmptyString => True end ->
  String.eqb (string_of_list_ascii (map to_lower ds)) w = false.
Proof.
  destruct ds as [|c r]; [congruence|]. intros H _ Hw.
  cbn in H. apply andb_prop in H. now apply digit_not_word.
Qed.

Lemma digits_of_nonnil (d : Decimal.uint) : d <> Decimal.Nil -> digits_of d <> [].
Proof. destruct d; [congruence|..]; discriminate. Qed.

Lemma py_float_of_uint (d : Decimal.uint) :
  d <> Decimal.Nil ->
  py_float (DecimalString.NilEmpty.string_of_uint d) =
    Some (PyFloat.of_decimal false (Z.of_uint d) 0) /\
  py_float (String "-" (DecimalString.NilEmpty.string_of_uint d)) =
    Some (PyFloat.of_decimal true (Z.of_uint d) 0).
Proof.
  intros Hd.
  assert (Hdig := digits_of_are_digits d).
  assert (Hne := digits_of_nonnil d Hd).
  assert (Hns : forallb (fun c => negb (is_space c)) (digits_of d) = true).
  { apply forallb_forall. intros c Hc. rewrite forallb_forall in Hdig.
    now rewrite (digit_not_space c (Hdig c Hc)). }
  split; unfold py_float.
  - fold (digits_of d). rewrite strip_no_space by exact Hns.
    rewrite drop_underscores_digits by exact Hdig.
    rewrite (digits_no_sign _ Hdig).
    rewrite !digits_no_word by (assumption || reflexivity).
    cbn [orb]. now apply decimal_digits.
  - cbn [list_ascii_of_string]. fold (digits_of d).
    rewrite strip_no_space by (cbn; exact Hns).
    cbn [drop_underscores]. change (Ascii.eqb "-" "_") with false. cbn iota.
    rewrite drop_underscores_digits by exact Hdig.
    cbn [option_map take_sign].
    rewrite !digits_no_word by (assumption || reflexivity).
    cbn [orb]. now apply decimal_digits.
Qed.

Lemma py_float_decimal_text (n : Z) :
  py_float (decimal_text n) = Some (PyFloat.of_Z n).
Proof.
  unfold decimal_text.
  destruct n as [|p|p]; [reflexivity|..];
    cbn [Z.to_int DecimalString.NilZero.string_of_int];
    rewrite nonnil_text;
    assert (Hp := DecimalPos.Unsigned.to_uint_nonnil p);
    assert (Hv : Z.of_uint (Pos.to_uint p) = Zpos p)
      by (unfold Z.of_uint; now rewrite DecimalPos.Unsigned.of_to);
    destruct (py_float_of_uint _ Hp) as [H1 H2].
  - rewrite H1, Hv. unfold PyFloat.of_decimal, PyFloat.of_Z.
    cbn [cond_Zopp Z.pow]. now rewrite Z.mul_1_r.
  - rewrite H2, Hv. unfold PyFloat.of_decimal, PyFloat.of_Z.
    cbn [cond_Zopp Z.pow]. now rewrite Z.mul_1_r.
Qed.

(** ** The characters [int] accepts *)
Lemma lstrip_In (c : ascii) (l : list ascii) :
  In c l -> In c (lstrip l) \/ is_space c = true.
Proof.
  induction l as [|a r IH]; [intros []|].
  intros H. cbn [lstrip]. destruct (is_space a) eqn:Ha.
  - destruct H as [<-|H]; [now right|now apply IH].
  - now left.
Qed.

Lemma strip_In (c : ascii) (l : list ascii) :
  In c l -> In c (strip l) \/ is_space c = true.
Proof.
  intros H. unfold strip.
  destruct (lstrip_In c l H) as [H1|]; [|now right].
  apply in_rev in H1.
  destruct (lstrip_In c _ H1) as [H2|]; [|now right].
  left. now apply in_rev in H2.
Qed.

Lemma take_sign_In (c : ascii) (l : list ascii) :
  In c l -> In c (snd (take_sign l)) \/ c = "+"%char \/ c = "-"%char.
Proof.
  unfold take_sign. destruct l as [|a r]; [intros []|].
  intros H.
  destruct (Ascii.eqb_spec a "+") as [->|Hp].
  { cbn. destruct H as [<-|H]; [right; now left|now left]. }
  destruct (Ascii.eqb_spec a "-") as [->|Hm].
  { cbn. destruct H as [<-|H]; [right; now right|now left]. }
  left.
  destruct a as [[] [] [] [] [] [] [] []]; try exact H; congruence.
Qed.

Lemma int_digits_In (l : list ascii) (acc : Z) (prev : bool) (n : Z) (c : ascii) :
  int_digits acc prev l = Some n -> In c l ->
  is_digit c = true \/ c = "_"%char.
Proof.
  revert acc prev. induction l as [|a r IH]; intros acc prev H Hin; [destruct Hin|].
  cbn [int_digits] in H.
  destruct (is_digit a) eqn:Ha.
  - destruct Hin as [<-|Hin]; [now left|]. now apply (IH _ _ H).
  - destruct (Ascii.eqb_spec a "_") as [->|]; [|discriminate].
    destruct prev; [|discriminate]. cbn [andb] in H.
    destruct r as [|d r']; [discriminate|].
    destruct (is_digit d) eqn:Hd; [|discriminate].
    destruct Hin as [<-|Hin]; [now right|]. now apply (IH _ _ H).
Qed.

Lemma py_int_chars (s : string) (n : Z) :
  py_int s = Some n ->
  forallb int_char (list_ascii_of_string s) = true.
Proof.
  unfold py_int. intros H. apply forallb_forall. intros c Hc.
  unfold int_char.
  destruct (strip_In c _ Hc) as [H1 | Hs]; [|now rewrite Hs, orb_true_r].
  destruct (take_sign (strip (list_ascii_of_string s))) as [neg body] eqn:E.
  destruct (take_sign_In c _ H1) as [H2 | [Hc' | Hc']];
    [| rewrite Hc'; reflexivity | rewrite Hc'; reflexivity].
  rewrite E in H2. cbn [snd] in H2.
  destruct (count_digits body <=? max_str_digits)%nat; [|discriminate].
  destruct (int_digits 0 false body) as [m|] eqn:Ed; [|discriminate].
  destruct (int_digits_In body _ _ _ c Ed H2) as [Hd | Hu].
  - now rewrite Hd.
  - rewrite Hu. reflexivity.
Qed.

End ParameterTexts.

(** ** What the parameter texts may be *)

(** X7. The period must be written as an integer literal: if the bb_period
    text (ASCII) holds any character other than a digit, whitespace, a sign
    or an underscore (a decimal point or an exponent, say), [Initialize]
    raises [ValueError] after its first three calls and sets nothing up. *)
Theorem period_must_be_integer_text :
  forall (G : string -> option string) (s : string),
    G "bb_period"%string = Some s ->
    ascii_text s = true ->
    forallb int_char (list_ascii_of_string s) = false ->
    Initialize G = (preamble, inl ValueError).
Proof.
  intros G s Hs _ Hc. rewrite Initialize_closed_form.
  unfold requested_period. rewrite Hs.
  destruct (PyBuiltin.py_int s) as [n|] eqn:E; [|reflexivity].
  apply py_int_chars in E. congruence.
Qed.

Lemma period_must_be_integer_text_witness :
  parameters [("bb_period", "20.0")]%string "bb_period"%string
    = Some "20.0"%string /\
  ascii_text "20.0" = true /\
  forallb int_char (list_ascii_of_string "20.0") = false /\
  Initialize (parameters [("bb_period", "20.0")]%string)
    = (preamble, inl ValueError).
Proof.
  do 3 (split; [reflexivity|]).
  apply (period_must_be_integer_text
           (parameters [("bb_period", "20.0")]%string) "20.0");
    reflexivity.
Defined.

(** X8. No integer is refused as a period for its sign or size, short of the
    digit limit of [int]: for every integer [n], negative ones and zero
    included, whose text [str(n)] has at most 4300 digits, that text as
    bb_period converts back to [n], and (the multiplier converting to some
    [k]) [Initialize] succeeds, gives the indicator the period [n] and asks
    for a warm-up of [n]. *)
Theorem every_integer_period_accepted :
  forall (G : string -> option string) (n : Z) (k : PyFloat.float),
    G "bb_period"%string = Some (decimal_text n) ->
    (digit_count (decimal_text n) <= PyBuiltin.max_str_digits)%nat ->
    requested_stddev G = Some k ->
    Initialize G =
    (preamble ++ setup (requested_pair G) n k,
     inr {| currencyPair := requested_pair G; bb_period := n;
            bb_stddev := k; symbol := mkSymbol (requested_pair G) Oanda |}).
Proof.
  intros G n k Hn Hmax Hk. rewrite Initialize_closed_form, Hk.
  unfold requested_period. now rewrite Hn, py_int_decimal_text.
Qed.

Lemma every_integer_period_accepted_witness :
  parameters [("bb_period", "-3")]%string "bb_period"%string
    = Some (decimal_text (-3)) /\
  (digit_count (decimal_text (-3)) <= PyBuiltin.max_str_digits)%nat /\
  requested_stddev (parameters [("bb_period", "-3")]%string)
    = Some PyFloat.two /\
  trace (Initialize (parameters [("bb_period", "-3")]%string)) =
    preamble ++ setup "EURUSD" (-3) PyFloat.two.
Proof.
  assert (Hmax : (digit_count (decimal_text (-3))
                  <= PyBuiltin.max_str_digits)%nat)
    by (apply Nat.leb_le; reflexivity).
  split; [reflexivity|]. split; [exact Hmax|]. split; [reflexivity|].
  rewrite (every_integer_period_accepted
             (parameters [("bb_period", "-3")]%string) (-3) PyFloat.two);
    [reflexivity|reflexivity|exact Hmax|reflexivity].
Defined.

(** X9. No integer is refused as a multiplier either: for every integer
    [m], negative ones and zero included, the text [str(m)] as bb_stddev
    converts to the float of [m], and (the period converting to some [n])
    [Initialize] succeeds and gives the indicator that multiplier. *)
Theorem every_integer_multiplier_accepted :
  forall (G : string -> option string) (m n : Z),
    G "bb_stddev"%string = Some (decimal_text m) ->
    requested_period G = Some n ->
    Initialize G =
    (preamble ++ setup (requested_pair G) n (PyFloat.of_Z m),
     inr {| currencyPair := requested_pair G; bb_period := n;
            bb_stddev := PyFloat.of_Z m;
            symbol := mkSymbol (requested_pair G) Oanda |}).
Proof.
  intros G m n Hm Hn. rewrite Initialize_closed_form, Hn.
  unfold requested_stddev. now rewrite Hm, py_float_decimal_text.
Qed.

Lemma every_integer_multiplier_accepted_witness :
  parameters [("bb_stddev", "-2")]%string "bb_stddev"%string
    = Some (decimal_text (-2)) /\
  requested_period (parameters [("bb_stddev", "-2")]%string) = Some 20%Z /\
  trace (Initialize (parameters [("bb_stddev", "-2")]%string)) =
    preamble ++ setup "EURUSD" 20 (PyFloat.of_Z (-2)).
Proof.
  do 2 (split; [reflexivity|]).
  rewrite (every_integer_multiplier_accepted
             (parameters [("bb_stddev", "-2")]%string) (-2) 20);
    reflexivity.
Defined.

(** * The two methods together *)

(** X10. Orders go only to the security [Initialize] added: when the
    algorithm carries the attributes of a successful [Initialize], every
    order of a tick is on the symbol of the pair that [AddForex] was called
    with, the one the indicator and the schedule were set up on. *)
Theorem orders_on_added_security :
  forall (G : string -> option string) (a : Attributes) (self : Algorithm),
    outcome (Initialize G) = inr a ->
    attributes self = a ->
    forall c : HostCall,
      In c (orders (TradeLogic self)) ->
      In (AddForex (currencyPair a) Minute Oanda) (trace (Initialize G)) /\
      (c = SetHoldings (mkSymbol (currencyPair a) Oanda) PyFloat.one \/
       c = Liquidate (mkSymbol (currencyPair a) Oanda)).
Proof.
  intros G a self Hinit Hattr c Hc.
  revert Hinit. rewrite Initialize_closed_form.
  destruct (requested_period G) as [n|]; [|discriminate].
  destruct (requested_stddev G) as [k|]; [|discriminate].
  unfold outcome, trace. cbn [fst snd]. intros [= Ha].
  assert (Hsym : symbol self = mkSymbol (currencyPair a) Oanda)
    by (rewrite Hattr, <- Ha; reflexivity).
  split; [rewrite <- Ha; cbn; tauto|].
  rewrite <- Hsym. revert Hc. rewrite TradeLogic_trace.
  destruct (IsWarmingUp self); [intros []|].
  destruct (evaluate _ _ _); cbn; intuition.
Qed.

Lemma orders_on_added_security_witness :
  exists a : Attributes,
    outcome (Initialize (parameters [("bb_period", "3")]%string)) = inr a /\
    attributes tick_a = a /\
    In (SetHoldings (mkSymbol "EURUSD" Oanda) PyFloat.one)
       (orders (TradeLogic tick_a)) /\
    In (AddForex "EURUSD" Minute Oanda)
       (trace (Initialize (parameters [("bb_period", "3")]%string))).
Proof.
  exists (attributes tick_a).
  assert (Hi : outcome (Initialize (parameters [("bb_period", "3")]%string))
               = inr (attributes tick_a)) by reflexivity.
  assert (Ho : In (SetHoldings (mkSymbol "EURUSD" Oanda) PyFloat.one)
                  (orders (TradeLogic tick_a))) by (left; reflexivity).
  split; [exact Hi|]. split; [reflexivity|]. split; [exact Ho|].
  exact (proj1 (orders_on_added_security _ _ tick_a Hi eq_refl _ Ho)).
Defined.
